(** * garmin-weight-exporter: a shallow embedding of [main.py]

    The client logs into Garmin Connect through the SSO form, claims the
    ticket found in the login page and then fetches two JSON documents.
    Python text is a sequence of Unicode code points; the HTTP service, the
    clock and the wall-clock date are the environment of a run. *)

From Stdlib Require Import String Ascii ZArith Lia.
From stdpp Require Import base option list gmap.

Local Open Scope Z_scope.

(** ** Text *)

Module Text.

(** A Python [str]: Unicode code points. *)
Definition char : Set := N.
Definition str : Set := list N.

(** A literal of the source, character by character. *)
Definition lit (s : string) : str := N_of_ascii <$> list_ascii_of_string s.

Definition dquote : char := 34%N.
Definition backslash : char := 92%N.

(** [str.isspace] on one character, which is what [\s] matches in a [str]
    pattern: the ASCII white space, the separators U+001C..U+001F and the
    Unicode spaces. *)
Definition is_space (c : char) : bool :=
  ((9 <=? c) && (c <=? 13) || (28 <=? c) && (c <=? 32)
   || (c =? 133) || (c =? 160) || (c =? 5760)
   || (8192 <=? c) && (c <=? 8202)
   || (c =? 8232) || (c =? 8233) || (c =? 8239) || (c =? 8287)
   || (c =? 12288))%N.

(** [s.startswith(p)], returning what follows the prefix. *)
Fixpoint strip_prefix (p s : str) : option str :=
  match p, s with
  | [], _ => Some s
  | a :: p', b :: s' => if (a =? b)%N then strip_prefix p' s' else None
  | _ :: _, [] => None
  end.

(** The longest prefix whose characters satisfy [f], and the rest. *)
Fixpoint span (f : char -> bool) (s : str) : str * str :=
  match s with
  | [] => ([], [])
  | c :: s' => if f c then let '(a, b) := span f s' in (c :: a, b) else ([], s)
  end.

(** [s.replace(c, '')] for a one-character [c]. *)
Definition remove_char (c : char) (s : str) : str :=
  List.filter (fun x => negb (x =? c)%N) s.

(** [t in s] *)
Fixpoint contains (t s : str) : bool :=
  match strip_prefix t s with
  | Some _ => true
  | None => match s with [] => false | _ :: s' => contains t s' end
  end.

End Text.
Export Text.

(** ** The ticket URL pattern

    [re.search(PATTERN, text)] with PATTERN, writing Q for the double
    quote character,
      response_url\s*=\s*Q(https:[^Q]+)Q
    Each starred or plussed class is followed by a character outside the
    class, so the greedy run is the only way to match and the engine never
    backtracks into it. *)

Module Pattern.

Definition not_dquote (c : char) : bool := negb (c =? dquote)%N.

(** The pattern anchored at the start of [s]: group 1 of the match. *)
Definition match_here (s : str) : option str :=
  s1 ← strip_prefix (lit "response_url") s;
  s2 ← strip_prefix (lit "=") (span is_space s1).2;
  s3 ← strip_prefix (dquote :: lit "https:") (span is_space s2).2;
  let '(u, s4) := span not_dquote s3 in
  match u with
  | [] => None
  | _ :: _ => _ ← strip_prefix [dquote] s4; Some (lit "https:" ++ u)
  end.

(** [re.search]: the match at the leftmost position that has one, with the
    position ([match.start()]) and group 1. *)
Fixpoint search_from (i : nat) (s : str) : option (nat * str) :=
  match match_here s with
  | Some u => Some (i, u)
  | None => match s with [] => None | _ :: s' => search_from (S i) s' end
  end.

Definition re_search (s : str) : option (nat * str) := search_from 0 s.

(** What the pattern denotes: [m] is a whole match with group 1 = [url]. *)
Definition is_assignment (m url : str) : Prop :=
  exists ws1 ws2 rest : str,
    m = lit "response_url" ++ ws1 ++ lit "=" ++ ws2
          ++ [dquote] ++ url ++ [dquote]
    /\ url = lit "https:" ++ rest
    /\ Forall (fun c => is_space c = true) ws1
    /\ Forall (fun c => is_space c = true) ws2
    /\ rest <> []
    /\ Forall (fun c => c <> dquote) rest.

End Pattern.
Export Pattern.

(** ** Integers and dates as text *)

Module Format.

Fixpoint uint_chars (d : Decimal.uint) : str :=
  match d with
  | Decimal.Nil => []
  | Decimal.D0 d => 48%N :: uint_chars d
  | Decimal.D1 d => 49%N :: uint_chars d
  | Decimal.D2 d => 50%N :: uint_chars d
  | Decimal.D3 d => 51%N :: uint_chars d
  | Decimal.D4 d => 52%N :: uint_chars d
  | Decimal.D5 d => 53%N :: uint_chars d
  | Decimal.D6 d => 54%N :: uint_chars d
  | Decimal.D7 d => 55%N :: uint_chars d
  | Decimal.D8 d => 56%N :: uint_chars d
  | Decimal.D9 d => 57%N :: uint_chars d
  end.

(** [str(n)] for an [int]. *)
Definition str_of_int (z : Z) : str :=
  match Z.to_int z with
  | Decimal.Pos d => uint_chars d
  | Decimal.Neg d => 45%N :: uint_chars d
  end.

Definition digit (z : Z) : char := Z.to_N (48 + z mod 10).

(** A number printed on two, or four, decimal digits, as [strftime] prints
    the month and the day, and a year that has four digits. *)
Definition pad2 (z : Z) : str := [digit (z / 10); digit z].
Definition pad4 (z : Z) : str :=
  [digit (z / 1000); digit (z / 100); digit (z / 10); digit z].

Definition is_digit (c : char) : bool := ((48 <=? c) && (c <=? 57))%N.

End Format.
Export Format.

(** ** [datetime]

    The proleptic Gregorian calendar of Python's [datetime] module: a value
    is its fields, and arithmetic with a [timedelta] goes through the day
    ordinal (day 1 is 0001-01-01). *)

Module Datetime.

Record datetime := {
  year : Z; month : Z; day : Z;
  hour : Z; minute : Z; second : Z; microsecond : Z
}.

Definition MAXORDINAL : Z := 3652059.

Definition _is_leap (y : Z) : bool :=
  (y mod 4 =? 0) && (negb (y mod 100 =? 0) || (y mod 400 =? 0)).

Definition _DAYS_IN_MONTH (m : Z) : Z :=
  match m with
  | 1 => 31 | 2 => 28 | 3 => 31 | 4 => 30 | 5 => 31 | 6 => 30
  | 7 => 31 | 8 => 31 | 9 => 30 | 10 => 31 | 11 => 30 | 12 => 31
  | _ => -1
  end.

Definition _DAYS_BEFORE_MONTH (m : Z) : Z :=
  match m with
  | 1 => 0 | 2 => 31 | 3 => 59 | 4 => 90 | 5 => 120 | 6 => 151
  | 7 => 181 | 8 => 212 | 9 => 243 | 10 => 273 | 11 => 304 | 12 => 334
  | _ => -1
  end.

Definition _days_before_year (y : Z) : Z :=
  let y := y - 1 in y * 365 + y / 4 - y / 100 + y / 400.

Definition _days_in_month (y m : Z) : Z :=
  if (m =? 2) && _is_leap y then 29 else _DAYS_IN_MONTH m.

Definition _days_before_month (y m : Z) : Z :=
  _DAYS_BEFORE_MONTH m + (if (2 <? m) && _is_leap y then 1 else 0).

Definition _ymd2ord (y m d : Z) : Z :=
  _days_before_year y + _days_before_month y m + d.

Definition _DI400Y : Z := 146097.
Definition _DI100Y : Z := 36524.
Definition _DI4Y : Z := 1461.

Definition _ord2ymd (n : Z) : Z * Z * Z :=
  let n := n - 1 in
  let n400 := n / _DI400Y in
  let n := n mod _DI400Y in
  let y := n400 * 400 + 1 in
  let n100 := n / _DI100Y in
  let n := n mod _DI100Y in
  let n4 := n / _DI4Y in
  let n := n mod _DI4Y in
  let n1 := n / 365 in
  let n := n mod 365 in
  let y := y + n100 * 100 + n4 * 4 + n1 in
  if (n1 =? 4) || (n100 =? 4) then (y - 1, 12, 31)
  else
    let leapyear := (n1 =? 3) && (negb (n4 =? 24) || (n100 =? 3)) in
    let m := Z.shiftr (n + 50) 5 in
    let preceding :=
      _DAYS_BEFORE_MONTH m + (if (2 <? m) && leapyear then 1 else 0) in
    if n <? preceding then
      let m := m - 1 in
      let preceding :=
        preceding
        - (_DAYS_IN_MONTH m + (if (m =? 2) && leapyear then 1 else 0)) in
      (y, m, n - preceding + 1)
    else (y, m, n - preceding + 1).

Definition toordinal (t : datetime) : Z := _ymd2ord (year t) (month t) (day t).

(** The invariant of a [datetime] object, checked by its constructor. *)
Definition valid (t : datetime) : bool :=
  (1 <=? year t) && (year t <=? 9999)
  && (1 <=? month t) && (month t <=? 12)
  && (1 <=? day t) && (day t <=? _days_in_month (year t) (month t))
  && (0 <=? hour t) && (hour t <=? 23)
  && (0 <=? minute t) && (minute t <=? 59)
  && (0 <=? second t) && (second t <=? 59)
  && (0 <=? microsecond t) && (microsecond t <=? 999999).

(** [t - datetime.timedelta(days=n)]: the time of day is kept, the date is
    rebuilt from the ordinal; [None] is [OverflowError]. *)
Definition sub_days (t : datetime) (n : Z) : option datetime :=
  let days := toordinal t - n in
  if (0 <? days) && (days <=? MAXORDINAL) then
    let '(y, m, d) := _ord2ymd days in
    Some {| year := y; month := m; day := d;
            hour := hour t; minute := minute t; second := second t;
            microsecond := microsecond t |}
  else None.

(** [t.strftime('%Y-%m-%d')].  The format is handed to the C library,
    which writes [%Y] as the year in decimal without padding it: a year
    below 1000 comes out on fewer than four digits. *)
Definition strftime_Ymd (t : datetime) : str :=
  str_of_int (year t) ++ lit "-" ++ pad2 (month t) ++ lit "-" ++ pad2 (day t).

End Datetime.
Export Datetime.

(** ** [urllib.parse.urlencode] *)

Module Urllib.

(** [s.encode('utf-8')]; [None] is [UnicodeEncodeError] (a surrogate, or a
    value that is no code point). *)
Definition utf8_char (c : char) : option (list N) :=
  (if c <? 128 then Some [c]
   else if c <? 2048 then Some [192 + c / 64; 128 + c mod 64]
   else if (55296 <=? c) && (c <=? 57343) then None
   else if c <? 65536 then
     Some [224 + c / 4096; 128 + (c / 64) mod 64; 128 + c mod 64]
   else if c <? 1114112 then
     Some [240 + c / 262144; 128 + (c / 4096) mod 64;
           128 + (c / 64) mod 64; 128 + c mod 64]
   else None)%N.

Fixpoint utf8 (s : str) : option (list N) :=
  match s with
  | [] => Some []
  | c :: s' => b ← utf8_char c; r ← utf8 s'; Some (b ++ r)
  end.

(** The bytes [quote] never escapes: letters, digits and [_.-~]. *)
Definition always_safe (b : N) : bool :=
  ((65 <=? b) && (b <=? 90) || (97 <=? b) && (b <=? 122)
   || (48 <=? b) && (b <=? 57)
   || (b =? 95) || (b =? 46) || (b =? 45) || (b =? 126))%N.

Definition hex_digit (n : N) : char :=
  (if n <? 10 then 48 + n else 55 + n)%N.

(** One byte as [quote_plus] writes it: kept, a plus sign for the space,
    or percent and two upper-case hexadecimal digits. *)
Definition quote_byte (b : N) : str :=
  (if always_safe b then [b]
   else if b =? 32 then [43]
   else [37; hex_digit (b / 16); hex_digit (b mod 16)])%N.

Definition quote_plus (s : str) : option str :=
  bs ← utf8 s; Some (concat (quote_byte <$> bs)).

(** A value of the parameter dictionary. *)
Inductive param := PInt (z : Z) | PStr (s : str).

Definition param_str (v : param) : str :=
  match v with PInt z => str_of_int z | PStr s => s end.

(** A [dict] with [str] keys, in insertion order. *)
Definition dict (V : Type) : Type := list (str * V).

(** [d[k] = v]: the value of an existing key is replaced in place, a new
    key goes to the end. *)
Fixpoint dict_set {V : Type} (k : str) (v : V) (d : dict V) : dict V :=
  match d with
  | [] => [(k, v)]
  | (k', v') :: d' =>
      if decide (k' = k) then (k, v) :: d' else (k', v') :: dict_set k v d'
  end.

Fixpoint join (sep : str) (l : list str) : str :=
  match l with
  | [] => []
  | [x] => x
  | x :: l' => x ++ sep ++ join sep l'
  end.

Fixpoint encode_items (q : dict param) : option (list str) :=
  match q with
  | [] => Some []
  | (k, v) :: q' =>
      k' ← quote_plus k; v' ← quote_plus (param_str v);
      r ← encode_items q'; Some ((k' ++ lit "=" ++ v') :: r)
  end.

Definition urlencode (q : dict param) : option str :=
  l ← encode_items q; Some (join (lit "&") l).

End Urllib.
Export Urllib.

(** ** [requests], [logging] and the exceptions of a run *)

Module Runtime.

Inductive exn :=
  | Exception_ (msg : str)
  | ValueError (msg : str)
  | RuntimeError (msg : str)
  | AttributeError (msg : str)
  | OverflowError
  | UnicodeEncodeError
  | JSONDecodeError
  | RecursionError
  | RequestException (what : str).

(** The outcome of a call: a value, or a raised exception. *)
Inductive outcome (A : Type) :=
  | Return (a : A)
  | Raise (e : exn).
Arguments Return {A} a.
Arguments Raise {A} e.

(** Sequencing of computations that may raise. *)
#[global] Instance outcome_bind : MBind outcome :=
  fun A B k o => match o with Return a => k a | Raise e => Raise e end.

Inductive http_method := GET | POST.

(** A cookie is filed under its domain, path and name. *)
Definition cookie_key : Type := str * str * str.

(** [requests.Session]: the cookie jar is the state a run depends on. *)
Record Session := { cookies : gmap cookie_key str }.

(** What [Session.get] and [Session.post] are called with, together with
    the cookies the jar holds at that moment. *)
Record request := {
  method : http_method;
  url : str;
  params : dict str;
  data : dict str;
  sent_cookies : gmap cookie_key str
}.

(** A response: the part of it the client reads, and what its cookie
    headers do to the jar, in order ([None] expires a cookie). *)
Record response := {
  status_code : Z;
  text : str;
  cookie_updates : list (cookie_key * option str)
}.

(** The transport either hands back a response or raises. *)
Inductive reply :=
  | Responded (r : response)
  | Failed (e : exn).

Definition update_jar (jar : gmap cookie_key str)
    (ups : list (cookie_key * option str)) : gmap cookie_key str :=
  foldl (fun j '(k, v) =>
           match v with Some x => <[k := x]> j | None => delete k j end)
        jar ups.

Inductive level := DEBUG | INFO | ERROR.

Record GarminClient := {
  username : str;
  password : str;
  session : option Session
}.

(** The state of a run: the client object, the requests sent so far
    (oldest first) and the records handed to the logger. *)
Record state := {
  self : GarminClient;
  wire : list request;
  logged : list (level * str)
}.

(** State and exceptions: a raised exception keeps the state reached. *)
Definition M (A : Type) : Type := state -> outcome A * state.

Definition ret {A} (a : A) : M A := fun s => (Return a, s).
Definition raise {A} (e : exn) : M A := fun s => (Raise e, s).
Definition bind {A B} (m : M A) (k : A -> M B) : M B :=
  fun s => match m s with
           | (Return a, s') => k a s'
           | (Raise e, s') => (Raise e, s')
           end.

Definition get_self : M GarminClient := fun s => (Return (self s), s).
Definition set_session (x : option Session) : M unit :=
  fun s => (Return tt,
            {| self := {| username := username (self s);
                          password := password (self s);
                          session := x |};
               wire := wire s; logged := logged s |}).
Definition log (l : level) (msg : str) : M unit :=
  fun s => (Return tt,
            {| self := self s; wire := wire s;
               logged := logged s ++ [(l, msg)] |}).

End Runtime.
Export Runtime.

Declare Scope run_scope.
Delimit Scope run_scope with run.
Notation "'let!' x ':=' m 'in' k" := (bind m (fun x => k))
  (at level 10, x name, m at level 100, k at level 200) : run_scope.
Notation "'do!' m 'in' k" := (bind m (fun _ => k))
  (at level 10, m at level 100, k at level 200) : run_scope.

(** ** [json.loads]

    The decoder of the standard library in its default, strict, mode.  A
    number with a fraction or an exponent becomes a [float]; its value is
    kept as the text it was read from.  Besides its own error the decoder
    meets two limits of the interpreter: [int] refuses a numeral of more
    than 4300 digits, and every list or object entered is a nested call,
    of which the recursion limit allows only so many. *)

Module Json.

#[local] Set Warnings "-register-all".

Inductive pyvalue :=
  | PyNone
  | PyBool (b : bool)
  | PyInt (z : Z)
  | PyFloat (lexeme : str)
  | PyStr (s : str)
  | PyList (l : list pyvalue)
  | PyDict (d : list (str * pyvalue)).

(** What the scanner found, or [JSONDecodeError]. *)
Definition parsed {A : Type} (o : option A) : outcome A :=
  match o with
  | Some a => Return a
  | None => Raise JSONDecodeError
  end.

(** [sys.get_int_max_str_digits()] and the error of [int] beyond it. *)
Definition MAX_STR_DIGITS : Z := 4300.

Definition int_too_long (digits : nat) : exn :=
  ValueError
    (lit "Exceeds the limit (4300 digits) for integer string conversion: value has "
     ++ str_of_int (Z.of_nat digits)
     ++ lit " digits; use sys.set_int_max_str_digits() to increase the limit").

Definition is_ws (c : char) : bool :=
  ((c =? 32) || (c =? 9) || (c =? 10) || (c =? 13))%N.

Definition skip_ws (s : str) : str := (span is_ws s).2.

Definition hex_val (c : char) : option N :=
  (if (48 <=? c) && (c <=? 57) then Some (c - 48)
   else if (65 <=? c) && (c <=? 70) then Some (c - 55)
   else if (97 <=? c) && (c <=? 102) then Some (c - 87)
   else None)%N.

(** Four hexadecimal digits after [\u]. *)
Definition decode_uXXXX (s : str) : option (N * str) :=
  match s with
  | a :: b :: c :: d :: r =>
      a ← hex_val a; b ← hex_val b; c ← hex_val c; d ← hex_val d;
      Some (((a * 16 + b) * 16 + c) * 16 + d, r)%N
  | _ => None
  end.

Definition backslash_escape (c : char) : option char :=
  (if c =? 34 then Some 34 else if c =? 92 then Some 92
   else if c =? 47 then Some 47 else if c =? 98 then Some 8
   else if c =? 102 then Some 12 else if c =? 110 then Some 10
   else if c =? 114 then Some 13 else if c =? 116 then Some 9
   else None)%N.

(** A [\u] escape just read as [uni]: a high surrogate followed by an
    escaped low surrogate makes one character. *)
Definition join_surrogates (uni : N) (r : str) : N * str :=
  (if (55296 <=? uni) && (uni <=? 56319) then
     match r with
     | x :: y :: r2 =>
         if (x =? 92) && (y =? 117) then
           match decode_uXXXX r2 with
           | Some (uni2, r3) =>
               if (56320 <=? uni2) && (uni2 <=? 57343)
               then (65536 + ((uni - 55296) * 1024 + (uni2 - 56320)), r3)
               else (uni, r)
           | None => (uni, r)
           end
         else (uni, r)
     | _ => (uni, r)
     end
   else (uni, r))%N.

(** The characters of a string after its opening quote, and what follows
    the closing quote. *)
Fixpoint scanstring (fuel : nat) (s : str) : option (str * str) :=
  match fuel with
  | O => None
  | S f =>
      match s with
      | [] => None
      | c :: s' =>
          if (c =? 34)%N then Some ([], s')
          else if (c =? 92)%N then
            match s' with
            | [] => None
            | e :: s'' =>
                if (e =? 117)%N then
                  '(uni, r) ← decode_uXXXX s'';
                  let '(ch, r') := join_surrogates uni r in
                  '(t, r'') ← scanstring f r'; Some (ch :: t, r'')
                else
                  ch ← backslash_escape e;
                  '(t, r) ← scanstring f s''; Some (ch :: t, r)
            end
          else if (c <? 32)%N then None
          else '(t, r) ← scanstring f s'; Some (c :: t, r)
      end
  end.

Definition int_of_digits (ds : str) : Z :=
  foldl (fun acc c => acc * 10 + (Z.of_N c - 48)) 0 ds.

(** [int(text)] for a numeral the number pattern matched: [sign] is empty
    or the minus sign, [ds] the digits. *)
Definition int_of_numeral (sign ds : str) : outcome pyvalue :=
  if MAX_STR_DIGITS <? Z.of_nat (length ds) then
    Raise (int_too_long (length ds))
  else
    Return (PyInt (if sign is [] then int_of_digits ds
                   else - int_of_digits ds)).

(** The character [c] at the start of [s], if it is there, and the rest. *)
Definition optional (c : char) (s : str) : str * str :=
  match s with
  | x :: r => if (x =? c)%N then ([c], r) else ([], s)
  | [] => ([], s)
  end.

(** A run of at least one digit after [lead], or nothing of [s] at all. *)
Definition digits_after (lead s r : str) : str * str :=
  match span is_digit r with
  | ([], _) => ([], s)
  | (ds, r') => (lead ++ ds, r')
  end.

(** The number pattern: an optional sign, [0] or a digit run without a
    leading zero, then an optional fraction and an optional exponent.
    [None] when the pattern does not match; a match without fraction and
    exponent is converted by [int]. *)
Definition match_number (s : str) : option (outcome pyvalue * str) :=
  let '(sign, s1) := optional 45%N s in
  '(int_part, s2) ←
    match s1 with
    | c :: r =>
        if (c =? 48)%N then Some ([48%N], r)
        else if is_digit c then Some (span is_digit s1)
        else None
    | [] => None
    end;
  let '(frac, s3) :=
    match s2 with
    | c :: r => if (c =? 46)%N then digits_after [c] s2 r else ([], s2)
    | [] => ([], s2)
    end in
  let '(exp, s4) :=
    match s3 with
    | e :: r =>
        if ((e =? 101) || (e =? 69))%N then
          let '(sg, r1) :=
            match r with
            | g :: r' =>
                if ((g =? 45) || (g =? 43))%N then ([g], r') else ([], r)
            | [] => ([], r)
            end in
          digits_after (e :: sg) s3 r1
        else ([], s3)
    | [] => ([], s3)
    end in
  match frac, exp with
  | [], [] => Some (int_of_numeral sign int_part, s4)
  | _, _ => Some (Return (PyFloat (sign ++ int_part ++ frac ++ exp)), s4)
  end.

(** [dict(pairs)] *)
Definition dict_of_pairs (l : list (str * pyvalue)) : list (str * pyvalue) :=
  foldl (fun d '(k, v) => dict_set k v d) [] l.

(** The values that hold no other value: the three names, a number, and
    the three constants a number cannot spell. *)
Definition scan_scalar (s : str) : outcome (pyvalue * str) :=
  match strip_prefix (lit "null") s,
        strip_prefix (lit "true") s,
        strip_prefix (lit "false") s with
  | Some r, _, _ => Return (PyNone, r)
  | _, Some r, _ => Return (PyBool true, r)
  | _, _, Some r => Return (PyBool false, r)
  | None, None, None =>
      match match_number s with
      | Some (Return v, r) => Return (v, r)
      | Some (Raise e, _) => Raise e
      | None =>
          match strip_prefix (lit "NaN") s,
                strip_prefix (lit "Infinity") s,
                strip_prefix (lit "-Infinity") s with
          | Some r, _, _ => Return (PyFloat (lit "NaN"), r)
          | _, Some r, _ => Return (PyFloat (lit "Infinity"), r)
          | _, _, Some r => Return (PyFloat (lit "-Infinity"), r)
          | None, None, None => Raise JSONDecodeError
          end
      end
  end.

(** One value at the start of [s] and what follows it.  A level of nesting
    or an element of a list costs one unit of [fuel]; [depth] is the number
    of lists and objects that may still be entered one inside the other
    before the interpreter raises [RecursionError]. *)
Fixpoint scan_once (fuel depth : nat) (s : str) : outcome (pyvalue * str) :=
  match fuel with
  | O => Raise JSONDecodeError
  | S f =>
      match s with
      | [] => Raise JSONDecodeError
      | c :: s' =>
          if (c =? 34)%N then
            '(t, r) ← parsed (scanstring (length s) s'); Return (PyStr t, r)
          else if (c =? 123)%N then
            match depth with
            | O => Raise RecursionError
            | S d =>
                match skip_ws s' with
                | x :: r =>
                    if (x =? 125)%N then Return (PyDict [], r)
                    else if (x =? 34)%N then object_loop f d r []
                    else Raise JSONDecodeError
                | [] => Raise JSONDecodeError
                end
            end
          else if (c =? 91)%N then
            match depth with
            | O => Raise RecursionError
            | S d =>
                match skip_ws s' with
                | x :: r =>
                    if (x =? 93)%N then Return (PyList [], r)
                    else array_loop f d (x :: r) []
                | [] => Raise JSONDecodeError
                end
            end
          else scan_scalar s
      end
  end
with array_loop (fuel depth : nat) (s : str) (acc : list pyvalue)
    : outcome (pyvalue * str) :=
  match fuel with
  | O => Raise JSONDecodeError
  | S f =>
      '(v, r) ← scan_once f depth s;
      match skip_ws r with
      | x :: r' =>
          if (x =? 93)%N then Return (PyList (acc ++ [v]), r')
          else if (x =? 44)%N then
            array_loop f depth (skip_ws r') (acc ++ [v])
          else Raise JSONDecodeError
      | [] => Raise JSONDecodeError
      end
  end
with object_loop (fuel depth : nat) (s : str) (acc : list (str * pyvalue))
    : outcome (pyvalue * str) :=
  match fuel with
  | O => Raise JSONDecodeError
  | S f =>
      '(k, r) ← parsed (scanstring (length s) s);
      match skip_ws r with
      | x :: r1 =>
          if (x =? 58)%N then
            '(v, r2) ← scan_once f depth (skip_ws r1);
            match skip_ws r2 with
            | y :: r3 =>
                if (y =? 125)%N then
                  Return (PyDict (dict_of_pairs (acc ++ [(k, v)])), r3)
                else if (y =? 44)%N then
                  match skip_ws r3 with
                  | z :: r4 =>
                      if (z =? 34)%N then
                        object_loop f depth r4 (acc ++ [(k, v)])
                      else Raise JSONDecodeError
                  | [] => Raise JSONDecodeError
                  end
                else Raise JSONDecodeError
            | [] => Raise JSONDecodeError
            end
          else Raise JSONDecodeError
      | [] => Raise JSONDecodeError
      end
  end.

(** [json.loads(s)] when the interpreter has room for [headroom] nested
    calls of the scanner: the value, or the exception raised. *)
Definition json_loads (headroom : nat) (s : str) : outcome pyvalue :=
  match s with
  | c :: _ =>
      if (c =? 65279)%N then Raise JSONDecodeError
      else
        '(v, r) ← scan_once (2 * length s + 2) headroom (skip_ws s);
        match skip_ws r with
        | [] => Return v
        | _ :: _ => Raise JSONDecodeError
        end
  | [] => Raise JSONDecodeError
  end.

End Json.
Export Json.

(** ** The client *)

Module Client.

Local Open Scope run_scope.

Definition SSO_LOGIN_URL : str := lit "https://sso.garmin.com/sso/login".

Definition WEIGHT_DATE_RANGE_URL : str :=
  lit "https://connect.garmin.com/modern/proxy/weight-service/weight/dateRange".

(** The wellness URL up to the place of the user name. *)
Definition WELLNESS_URL : str :=
  lit "https://connect.garmin.com/modern/proxy/userstats-service/wellness/daily/".

Definition LEGACY_SESSION_URL : str :=
  lit "https://connect.garmin.com/legacy/session".

Definition not_connected : exn :=
  Exception_ (lit "Attempt to use GarminClient without being connected.").

Definition bad_credentials : exn :=
  ValueError (lit "authentication failure: did you enter valid credentials?").

Definition no_ticket_url : exn :=
  RuntimeError (lit "auth failure: unable to extract auth ticket URL").

Definition ticket_not_claimed (u : str) (r : response) : exn :=
  RuntimeError (lit "auth failure: failed to claim auth ticket: " ++ u
                ++ lit ": " ++ str_of_int (status_code r)
                ++ [10%N] ++ text r).

Definition fetch_failed (r : response) : str :=
  lit "failed to fetch json summary: code=" ++ str_of_int (status_code r)
  ++ lit " text=" ++ text r.

(** [require_session]: the wrapped method runs only when [self.session]
    is set. *)
Definition require_session {A : Type} (client_function : M A) : M A :=
  fun s =>
    match session (self s) with
    | None => (Raise not_connected, s)
    | Some _ => client_function s
    end.

Definition _extract_auth_ticket_url (auth_response : str) : outcome str :=
  match re_search auth_response with
  | None => Raise no_ticket_url
  | Some (_, group1) => Return (remove_char backslash group1)
  end.

Definition lift {A : Type} (o : outcome A) : M A := fun s => (o, s).

(** [GarminClient(username, password)] *)
Definition __init__ (username password : str) : GarminClient :=
  {| username := username; password := password; session := None |}.

Section Service.

(** The remote side: what the transport answers to a request, given the
    requests sent before it. *)
Variable service : list request -> request -> reply.

(** [self.session.get(...)] and [self.session.post(...)]: the request is
    put on record with the jar as it is when it goes out (which of its
    cookies the library attaches is a matter of their domain and path),
    and the cookies of the response are filed in the jar. *)
Definition session_request (m : http_method) (u : str) (p d : dict str)
    : M response :=
  fun s =>
    match session (self s) with
    | None =>
        (Raise (AttributeError
                  (lit "'NoneType' object has no attribute '"
                   ++ match m with GET => lit "get" | POST => lit "post" end
                   ++ lit "'")), s)
    | Some sess =>
        let req := {| method := m; url := u; params := p; data := d;
                      sent_cookies := cookies sess |} in
        match service (wire s) req with
        | Responded r =>
            (Return r,
             {| self := {| username := username (self s);
                           password := password (self s);
                           session := Some {| cookies :=
                             update_jar (cookies sess) (cookie_updates r) |} |};
                wire := wire s ++ [req]; logged := logged s |})
        | Failed e =>
            (Raise e,
             {| self := self s; wire := wire s ++ [req];
                logged := logged s |})
        end
    end.

Definition session_get (u : str) : M response := session_request GET u [] [].

Definition session_post (u : str) (p d : dict str) : M response :=
  session_request POST u p d.

Definition _authenticate : M unit :=
  do! log INFO (lit "authenticating user ...") in
  let! me := get_self in
  let form_data :=
    [(lit "username", username me); (lit "password", password me);
     (lit "embed", lit "false")] in
  let request_params :=
    [(lit "service", lit "https://connect.garmin.com/modern")] in
  let! auth_response := session_post SSO_LOGIN_URL request_params form_data in
  do! log DEBUG (lit "got auth response: " ++ text auth_response) in
  if negb (status_code auth_response =? 200) then raise bad_credentials
  else
    let! auth_ticket_url :=
      lift (_extract_auth_ticket_url (text auth_response)) in
    do! log DEBUG (lit "auth ticket url: " ++ [dquote] ++ auth_ticket_url
                   ++ [dquote]) in
    do! log INFO (lit "claiming auth ticket ...") in
    let! response := session_get auth_ticket_url in
    if negb (status_code response =? 200)
    then raise (ticket_not_claimed auth_ticket_url response)
    else
      do! session_get LEGACY_SESSION_URL in
      ret tt.

Definition connect : M unit :=
  do! set_session (Some {| cookies := ∅ |}) in
  _authenticate.

Definition disconnect : M unit :=
  let! me := get_self in
  match session me with
  | Some _ => set_session None
  | None => ret tt
  end.

(** The context manager: [with GarminClient(...) as client]. *)
Definition __enter__ : M GarminClient :=
  do! connect in
  get_self.

Definition __exit__ : M unit := disconnect.

(** The room the interpreter's stack has for nested calls when a fetch
    hands its response to the decoder. *)
Variable headroom : nat.

(** [json.loads(text)] inside a method: the value, or the exception the
    decoder raises. *)
Definition loads (text : str) : M pyvalue := lift (json_loads headroom text).

(** [now] is what [datetime.datetime.now()] reads and [epoch] the value of
    [int(time.time())] at the call. *)
Definition get_weight (now : datetime) (epoch : Z)
    (start end_ : option datetime) : M pyvalue :=
  require_session (
    let end_ := match end_ with Some e => e | None => now end in
    match (match start with
           | Some st => Some st
           | None => sub_days end_ 30
           end) with
    | None => raise OverflowError
    | Some start =>
        let query_params :=
          [(lit "_", PInt epoch);
           (lit "startDate", PStr (strftime_Ymd start));
           (lit "endDate", PStr (strftime_Ymd end_))] in
        match urlencode query_params with
        | None => raise UnicodeEncodeError
        | Some q =>
            let! response :=
              session_get (WEIGHT_DATE_RANGE_URL ++ lit "?" ++ q) in
            if negb (status_code response =? 200) then
              do! log ERROR (fetch_failed response) in
              ret PyNone
            else loads (text response)
        end
    end).

Definition metric_ids : list Z := [23; 41; 42].

Definition get_calories (epoch : Z) (start end_ : option datetime)
    : M pyvalue :=
  require_session (
    let query_params := [(lit "_", PInt epoch)] in
    let query_params :=
      match start with
      | Some st => dict_set (lit "fromDate") (PStr (strftime_Ymd st)) query_params
      | None => query_params
      end in
    let query_params :=
      match end_ with
      | Some e => dict_set (lit "untilDate") (PStr (strftime_Ymd e)) query_params
      | None => query_params
      end in
    let! me := get_self in
    match urlencode query_params with
    | None => raise UnicodeEncodeError
    | Some q =>
        let url := WELLNESS_URL ++ username me ++ lit "?" ++ q in
        let url :=
          foldl (fun u metric => u ++ lit "&metricId=" ++ str_of_int metric)
                url metric_ids in
        let! response := session_get url in
        if negb (status_code response =? 200) then
          do! log ERROR (fetch_failed response) in
          ret PyNone
        else loads (text response)
    end).

End Service.

End Client.
Export Client.

(** ** Vocabulary of the statements *)

Module Vocabulary.

(** The request [_authenticate] posts, from a client whose jar is [jar]. *)
Definition login_request (me : GarminClient) (jar : gmap cookie_key str)
    : request :=
  {| method := POST; url := SSO_LOGIN_URL;
     params := [(lit "service", lit "https://connect.garmin.com/modern")];
     data := [(lit "username", username me); (lit "password", password me);
              (lit "embed", lit "false")];
     sent_cookies := jar |}.

Definition get_request (u : str) (jar : gmap cookie_key str) : request :=
  {| method := GET; url := u; params := []; data := [];
     sent_cookies := jar |}.

(** The client [me] holding a session whose jar is [jar]. *)
Definition with_jar (me : GarminClient) (jar : gmap cookie_key str)
    : GarminClient :=
  {| username := username me; password := password me;
     session := Some {| cookies := jar |} |}.

(** Month and day of day [n] (from 0) of a year: the second half of
    [_ord2ymd]. *)
Definition month_day (leapyear : bool) (n : Z) : Z * Z :=
  let m := Z.shiftr (n + 50) 5 in
  let preceding :=
    _DAYS_BEFORE_MONTH m + (if (2 <? m) && leapyear then 1 else 0) in
  if n <? preceding then
    let m := m - 1 in
    let preceding :=
      preceding
      - (_DAYS_IN_MONTH m + (if (m =? 2) && leapyear then 1 else 0)) in
    (m, n - preceding + 1)
  else (m, n - preceding + 1).

Definition digit_val (c : char) : Z := Z.of_N c - 48.

(** Reading [YYYY-MM-DD]: ten characters, digits around two hyphens, and
    nothing after them. *)
Definition read_Ymd (s : str) : option (Z * Z * Z) :=
  match s with
  | [y1; y2; y3; y4; h1; m1; m2; h2; d1; d2] =>
      if forallb is_digit [y1; y2; y3; y4; m1; m2; d1; d2]
         && (h1 =? 45)%N && (h2 =? 45)%N
      then Some (((digit_val y1 * 10 + digit_val y2) * 10 + digit_val y3) * 10
                 + digit_val y4,
                 digit_val m1 * 10 + digit_val m2,
                 digit_val d1 * 10 + digit_val d2)
      else None
  | _ => None
  end.

(** The query string [get_calories] builds. *)
Definition calories_query (epoch : Z) (start end_ : option datetime) : str :=
  lit "_=" ++ str_of_int epoch
  ++ match start with
     | Some st => lit "&fromDate=" ++ strftime_Ymd st
     | None => []
     end
  ++ match end_ with
     | Some e => lit "&untilDate=" ++ strftime_Ymd e
     | None => []
     end
  ++ lit "&metricId=23&metricId=41&metricId=42".

(** A character of a decimal number or of a date: a digit or the hyphen. *)
Definition plain (c : char) : Prop := is_digit c = true \/ c = 45%N.

(** Whether the client holds a session, and the jar it then has. *)
Definition connected (st : state) : Prop := session (self st) <> None.

Definition jar_of (st : state) : gmap cookie_key str :=
  match session (self st) with
  | Some sess => cookies sess
  | None => ∅
  end.

(** The state [_authenticate] has reached once the login response [r] has
    been read. *)
Definition st_after_login (st : state) (sess : Session) (r : response)
    : state :=
  {| self := with_jar (self st) (update_jar (cookies sess) (cookie_updates r));
     wire := wire st ++ [login_request (self st) (cookies sess)];
     logged := logged st ++ [(INFO, lit "authenticating user ...");
                             (DEBUG, lit "got auth response: " ++ text r)] |}.

(** The request that claims the ticket at [u] after the login response
    [r1], and the state once its response [r2] has been read. *)
Definition claim_request (sess : Session) (r1 : response) (u : str)
    : request :=
  get_request u (update_jar (cookies sess) (cookie_updates r1)).

Definition st_after_claim (st : state) (sess : Session) (r1 : response)
    (u : str) (r2 : response) : state :=
  {| self := with_jar (self st)
               (update_jar (update_jar (cookies sess) (cookie_updates r1))
                           (cookie_updates r2));
     wire := wire st ++ [login_request (self st) (cookies sess);
                         claim_request sess r1 u];
     logged := logged st ++ [(INFO, lit "authenticating user ...");
                             (DEBUG, lit "got auth response: " ++ text r1);
                             (DEBUG, lit "auth ticket url: " ++ [dquote] ++ u
                                     ++ [dquote]);
                             (INFO, lit "claiming auth ticket ...")] |}.

(** The warm-up request that follows a claimed ticket. *)
Definition warmup_request (sess : Session) (r1 r2 : response) : request :=
  get_request LEGACY_SESSION_URL
    (update_jar (update_jar (cookies sess) (cookie_updates r1))
                (cookie_updates r2)).

(** The tail the two fetches share: what they do with the response. *)
Definition decode (headroom : nat) (response : response) : M pyvalue :=
  if negb (status_code response =? 200) then
    bind (log ERROR (fetch_failed response)) (fun _ => ret PyNone)
  else loads headroom (text response).

(** The bounds [get_weight] settles on: the end as given or else the
    clock, the start as given or else thirty days before that end; [None]
    when that day is outside the calendar. *)
Definition window (now : datetime) (start end_ : option datetime)
    : option (datetime * datetime) :=
  let e := match end_ with Some x => x | None => now end in
  match start with
  | Some s => Some (s, e)
  | None => s ← sub_days e 30; Some (s, e)
  end.

(** The one request of each fetch, from a client whose jar is [jar]. *)
Definition weight_request (epoch : Z) (s e : datetime)
    (jar : gmap cookie_key str) : request :=
  get_request (WEIGHT_DATE_RANGE_URL ++ lit "?" ++ lit "_="
               ++ str_of_int epoch
               ++ lit "&startDate=" ++ strftime_Ymd s
               ++ lit "&endDate=" ++ strftime_Ymd e) jar.

Definition calories_request (me : GarminClient) (epoch : Z)
    (start end_ : option datetime) (jar : gmap cookie_key str) : request :=
  get_request (WELLNESS_URL ++ username me ++ lit "?"
               ++ calories_query epoch start end_) jar.

(** The state of a fetch once the response [r] to its request [req] has
    come in: the request is on the wire and the cookies of the response
    are filed. *)
Definition st_after_fetch (st : state) (sess : Session) (req : request)
    (r : response) : state :=
  {| self := with_jar (self st) (update_jar (cookies sess) (cookie_updates r));
     wire := wire st ++ [req]; logged := logged st |}.

(** How a fetch that ended in [res] from the state [st] treated the
    response [r]: a status other than 200 is logged and gives [None], a
    200 body is what [json.loads] makes of it. *)
Definition decoded (headroom : nat) (st : state) (r : response)
    (res : outcome pyvalue * state) : Prop :=
  (status_code r <> 200 ->
   res.1 = Return PyNone
   /\ logged res.2 = logged st ++ [(ERROR, fetch_failed r)])
  /\ (status_code r = 200 ->
      res.1 = json_loads headroom (text r)
      /\ logged res.2 = logged st).

End Vocabulary.
Export Vocabulary.

(** ** Runs used as examples *)

Module Examples.

Definition garmin_cookie : cookie_key :=
  (lit "sso.garmin.com", lit "/", lit "GARMIN-SSO").

(** A service that turns every request down with status 401 and a cookie. *)
Definition service_401 : list request -> request -> reply :=
  fun _ _ =>
    Responded {| status_code := 401; text := lit "denied";
                 cookie_updates := [(garmin_cookie, Some (lit "1"))] |}.

(** A service that answers every request with status 404. *)
Definition service_404 : list request -> request -> reply :=
  fun _ _ =>
    Responded {| status_code := 404; text := lit "not found";
                 cookie_updates := [] |}.

(** A service that answers every request with status 200 and [body]. *)
Definition service_200 (body : str) : list request -> request -> reply :=
  fun _ _ =>
    Responded {| status_code := 200; text := body; cookie_updates := [] |}.

(** The login page carries a ticket URL; the warm-up call is answered with
    status 500 and every other GET with status 200 and [json_page]. *)
Definition ticket_page : str :=
  lit "var response_url = " ++ [dquote]
  ++ lit "https:\/\/connect.garmin.com\/modern?ticket=ST-01" ++ [dquote]
  ++ lit ";".

Definition json_page : str :=
  lit "{" ++ [dquote] ++ lit "dateWeightList" ++ [dquote] ++ lit ":[]}".

Definition service_sso : list request -> request -> reply :=
  fun _ req =>
    match method req with
    | POST =>
        Responded {| status_code := 200; text := ticket_page;
                     cookie_updates := [(garmin_cookie, Some (lit "1"))] |}
    | GET =>
        if decide (url req = LEGACY_SESSION_URL) then
          Responded {| status_code := 500; text := lit "oops";
                       cookie_updates := [] |}
        else
          Responded {| status_code := 200; text := json_page;
                       cookie_updates := [] |}
    end.

Definition me : GarminClient := __init__ (lit "jo") (lit "secret").

(** A client just constructed, and one that holds a session. *)
Definition st_fresh : state := {| self := me; wire := []; logged := [] |}.

Definition st_connected : state :=
  {| self := with_jar me ∅; wire := []; logged := [] |}.

(** Room for nine hundred nested calls, as a shallow stack has under the
    recursion limit the interpreter starts with. *)
Definition headroom_900 : nat := 900.

Definition noon (y m d : Z) : datetime :=
  {| year := y; month := m; day := d;
     hour := 12; minute := 0; second := 0; microsecond := 0 |}.

(** A body with an assignment whose URL is not an https one. *)
Definition body_http : str :=
  lit "response_url = " ++ [dquote] ++ lit "http://x/y?ticket=ABC"
  ++ [dquote].

(** The body of the specification's example, inside a script. *)
Definition body_ticket : str :=
  lit "var x; " ++ (lit "response_url = " ++ [dquote]
  ++ lit "https://x/y?ticket=ABC" ++ [dquote]) ++ lit ";".

End Examples.
Export Examples.

(** ** The client as a context manager

    [with GarminClient(...) as client: body], the use the class documents:
    [__enter__] first; when it returns, the body and then [__exit__],
    whether the body returned or raised.  [__exit__] returns [None], so an
    exception of the body goes on to the caller. *)

Module Protocol.

Section Service.

Variable service : list request -> request -> reply.

Definition with_client {A : Type} (body : GarminClient -> M A) : M A :=
  fun s =>
    match __enter__ service s with
    | (Raise e, s1) => (Raise e, s1)
    | (Return client, s1) =>
        let '(o, s2) := body client s1 in
        match __exit__ s2 with
        | (Return _, s3) => (o, s3)
        | (Raise e, s3) => (Raise e, s3)
        end
    end.

End Service.

(** The state [connect] hands to [_authenticate]: a new session, its jar
    empty. *)
Definition st_connecting (st : state) : state :=
  {| self := with_jar (self st) ∅; wire := wire st; logged := logged st |}.

(** The three requests of a handshake that goes all the way. *)
Definition handshake (me : GarminClient) (r1 : response) (u : str)
    (r2 : response) : list request :=
  [login_request me ∅; claim_request {| cookies := ∅ |} r1 u;
   warmup_request {| cookies := ∅ |} r1 r2].

End Protocol.
Export Protocol.

(** ** The program

    [main] after [parse_args].  The command line arrives as the namespace
    the parser built, the password prompt and the date parser are answers
    of the environment, and what is printed is kept as the calls made. *)

Module Program.

Inductive target := weight | calories.

Definition target_name (t : target) : str :=
  match t with weight => lit "weight" | calories => lit "calories" end.

(** [args]: an option that was not given is [None]. *)
Record args := {
  arg_start : option str;
  arg_end : option str;
  arg_password : option str;
  arg_pretty_print : bool;
  arg_target : target;
  arg_username : str
}.

(** [if x:] for an optional string: [None] and the empty string are
    false. *)
Definition truthy (x : option str) : option str :=
  match x with
  | Some (c :: s) => Some (c :: s)
  | _ => None
  end.

(** A call that writes to the standard output: [print(args.target)], and
    [printer(data)] with [pprint.pprint] or [print]. *)
Inductive printed :=
  | PrintTarget (name : str)
  | PrintData (pretty : bool) (data : pyvalue).

Definition PROMPT : str := lit "Enter your Garmin Connect password: ".

(** What a run of [main] amounts to: how it ended, the prompts shown, the
    state of the client once it exists, and the calls that printed. *)
Record report := {
  result : outcome unit;
  prompts : list str;
  final : option state;
  stdout : list printed
}.

Section Environment.

Variable service : list request -> request -> reply.

(** The room for nested calls when the fetch decodes its response. *)
Variable headroom : nat.

(** [getpass.getpass(prompt)] and [dateutil.parser.parse(text)]. *)
Variable getpass : str -> outcome str.
Variable parse : str -> outcome datetime.

(** The clock when the fetch runs. *)
Variable now : datetime.
Variable epoch : Z.

Definition parse_optional (x : option str) : outcome (option datetime) :=
  match truthy x with
  | None => Return None
  | Some text =>
      match parse text with
      | Return t => Return (Some t)
      | Raise e => Raise e
      end
  end.

Definition main (a : args) : report :=
  let '(password, shown) :=
    match truthy (arg_password a) with
    | Some p => (Return p, [])
    | None => (getpass PROMPT, [PROMPT])
    end in
  match password with
  | Raise e =>
      {| result := Raise e; prompts := shown; final := None; stdout := [] |}
  | Return password =>
  match parse_optional (arg_start a) with
  | Raise e =>
      {| result := Raise e; prompts := shown; final := None; stdout := [] |}
  | Return start =>
  match parse_optional (arg_end a) with
  | Raise e =>
      {| result := Raise e; prompts := shown; final := None; stdout := [] |}
  | Return end_ =>
  let client := __init__ (arg_username a) password in
  match connect service {| self := client; wire := []; logged := [] |} with
  | (Raise e, s1) =>
      {| result := Raise e; prompts := shown; final := Some s1;
         stdout := [] |}
  | (Return _, s1) =>
  let out := [PrintTarget (target_name (arg_target a))] in
  match match arg_target a with
        | weight => get_weight service headroom now epoch start end_ s1
        | calories => get_calories service headroom epoch start end_ s1
        end with
  | (Raise e, s2) =>
      {| result := Raise e; prompts := shown; final := Some s2;
         stdout := out |}
  | (Return data, s2) =>
      {| result := Return tt; prompts := shown; final := Some s2;
         stdout := out ++ [PrintData (arg_pretty_print a) data] |}
  end end end end end.

End Environment.

End Program.
Export Program.

(** ** Further runs used as examples *)

Module MoreExamples.

(** The login and the warm-up are answered with 200, the ticket claim with
    403. *)
Definition service_claim_403 : list request -> request -> reply :=
  fun _ req =>
    match method req with
    | POST =>
        Responded {| status_code := 200; text := ticket_page;
                     cookie_updates := [(garmin_cookie, Some (lit "1"))] |}
    | GET =>
        Responded {| status_code := 403; text := lit "forbidden";
                     cookie_updates := [] |}
    end.


(** The login goes through; afterwards the connection is down. *)
Definition service_fetch_down : list request -> request -> reply :=
  fun h req =>
    match h with
    | [_; _; _] => Failed (RequestException (lit "ConnectionError"))
    | _ => service_sso h req
    end.


(** A date parser that knows one date and refuses the rest. *)
Definition parse_iso : str -> outcome datetime :=
  fun text =>
    if decide (text = lit "2024-01-31") then Return (noon 2024 1 31)
    else Raise (ValueError (lit "Unknown string format")).

Definition getpass_secret : str -> outcome str :=
  fun _ => Return (lit "secret").

Definition args_weight : args :=
  {| arg_start := None; arg_end := None; arg_password := Some (lit "secret");
     arg_pretty_print := false; arg_target := weight;
     arg_username := lit "jo" |}.

End MoreExamples.
Export MoreExamples.

(** * Properties *)

(** ** Text *)

Lemma strip_prefix_app (p s : str) : strip_prefix p (p ++ s) = Some s.
Proof. induction p as [|a p IH]; simpl; [done|]. by rewrite N.eqb_refl. Qed.

Lemma strip_prefix_Some (p s t : str) :
  strip_prefix p s = Some t -> s = p ++ t.
Proof.
  revert s. induction p as [|a p IH]; intros [|b s]; simpl; try congruence.
  destruct (N.eqb_spec a b) as [->|]; [|done]. intros H. by rewrite (IH _ H).
Qed.

Lemma span_spec (f : char -> bool) (s a b : str) :
  span f s = (a, b) ->
  s = a ++ b /\ Forall (fun c => f c = true) a
  /\ (forall c b', b = c :: b' -> f c = false).
Proof.
  revert a b. induction s as [|c s IH]; simpl; intros a b H.
  - inversion H; subst. split_and!; [done|constructor|done].
  - destruct (f c) eqn:Hc.
    + destruct (span f s) as [a' b'] eqn:Hs. inversion H; subst.
      destruct (IH _ _ eq_refl) as (-> & Ha & Hb).
      split_and!; [done|by constructor|done].
    + inversion H; subst. split_and!; [done|constructor|].
      intros c' b' [= <- <-]. done.
Qed.

Lemma span_app (f : char -> bool) (a b : str) :
  Forall (fun c => f c = true) a ->
  (forall c b', b = c :: b' -> f c = false) ->
  span f (a ++ b) = (a, b).
Proof.
  intros Ha Hb. induction Ha as [|c a Hc Ha IH]; simpl.
  - destruct b as [|c b']; [done|]. simpl. by rewrite (Hb c b' eq_refl).
  - by rewrite Hc, IH.
Qed.

Lemma option_bind_Some {A B} (x : A) (f : A -> option B) :
  (Some x ≫= f) = f x.
Proof. done. Qed.

(** ** The pattern: the matcher against what the pattern denotes *)

Lemma match_here_complete (m url post : str) :
  is_assignment m url -> match_here (m ++ post) = Some url.
Proof.
  intros (ws1 & ws2 & rest & -> & -> & H1 & H2 & Hne & Hq).
  unfold match_here.
  rewrite <- !app_assoc, strip_prefix_app, option_bind_Some.
  rewrite (span_app is_space ws1); [|done|by intros c b' [= <- <-]].
  cbn [snd]. rewrite strip_prefix_app, option_bind_Some.
  rewrite (span_app is_space ws2); [|done|by intros c b' [= <- <-]].
  cbn [snd].
  change ([dquote] ++ lit "https:" ++ rest ++ [dquote] ++ post)
    with ((dquote :: lit "https:") ++ rest ++ [dquote] ++ post).
  rewrite strip_prefix_app, option_bind_Some.
  rewrite (span_app not_dquote rest).
  - destruct rest as [|c rest]; [done|]. by rewrite strip_prefix_app.
  - eapply Forall_impl; [exact Hq|]. intros c Hc. unfold not_dquote.
    by destruct (N.eqb_spec c dquote).
  - by intros c b' [= <- <-].
Qed.

Lemma match_here_sound (s url : str) :
  match_here s = Some url ->
  exists m post, s = m ++ post /\ is_assignment m url.
Proof.
  unfold match_here. intros H.
  destruct (strip_prefix (lit "response_url") s) as [s1|] eqn:E1; [|done].
  rewrite option_bind_Some in H.
  destruct (span is_space s1) as [ws1 t1] eqn:S1. cbn [snd] in H.
  destruct (strip_prefix (lit "=") t1) as [s2|] eqn:E2; [|done].
  rewrite option_bind_Some in H.
  destruct (span is_space s2) as [ws2 t2] eqn:S2. cbn [snd] in H.
  destruct (strip_prefix (dquote :: lit "https:") t2) as [s3|] eqn:E3;
    [|done].
  rewrite option_bind_Some in H.
  destruct (span not_dquote s3) as [u s4] eqn:S3.
  destruct u as [|c u]; [done|].
  destruct (strip_prefix [dquote] s4) as [s5|] eqn:E4; [|done].
  rewrite option_bind_Some in H. injection H as <-.
  apply strip_prefix_Some in E1, E2, E3, E4.
  apply span_spec in S1 as (-> & F1 & _), S2 as (-> & F2 & _),
    S3 as (-> & F3 & _).
  subst.
  exists (lit "response_url" ++ ws1 ++ lit "=" ++ ws2 ++ [dquote]
            ++ (lit "https:" ++ c :: u) ++ [dquote]), s5.
  split.
  - by rewrite <- !app_assoc.
  - exists ws1, ws2, (c :: u). split_and!; try done.
    eapply Forall_impl; [exact F3|]. intros x Hx. unfold not_dquote in Hx.
    by destruct (N.eqb_spec x dquote).
Qed.

Lemma search_from_None (i : nat) (s : str) :
  search_from i s = None
  <-> (forall pre rest, s = pre ++ rest -> match_here rest = None).
Proof.
  revert i. induction s as [|c s IH]; intros i.
  - split; [|done]. intros _ pre rest H. symmetry in H.
    by apply app_eq_nil in H as [_ ->].
  - cbn [search_from].
    destruct (match_here (c :: s)) eqn:E; split; try done.
    + intros H. specialize (H [] (c :: s) eq_refl). congruence.
    + intros H pre rest Heq. destruct pre as [|c' pre]; simpl in Heq.
      * by subst.
      * injection Heq as <- ->. by eapply IH.
    + intros H. apply IH. intros pre rest ->. by apply (H (c :: pre)).
Qed.

Lemma search_from_Some (i k : nat) (s u : str) :
  search_from i s = Some (k, u) ->
  exists pre rest, s = pre ++ rest /\ k = (i + length pre)%nat
    /\ match_here rest = Some u
    /\ (forall p q, pre = p ++ q -> q <> [] -> match_here (q ++ rest) = None).
Proof.
  revert i. induction s as [|c s IH]; intros i.
  - done.
  - cbn [search_from]. destruct (match_here (c :: s)) eqn:E.
    + intros [= <- <-]. exists [], (c :: s).
      split_and!; [done|simpl; lia|done|].
      intros p q H. symmetry in H. apply app_eq_nil in H as [_ ->]. done.
    + intros H. destruct (IH _ H) as (pre & rest & -> & -> & Hm & Hl).
      exists (c :: pre), rest. split_and!; [done|simpl; lia|done|].
      intros p q Hpq Hq. destruct p as [|c' p]; simpl in Hpq.
      * subst q. exact E.
      * injection Hpq as <- ->. by apply (Hl p q).
Qed.

Lemma search_from_leftmost (i : nat) (pre rest u : str) :
  match_here rest = Some u ->
  (forall p q, pre = p ++ q -> q <> [] -> match_here (q ++ rest) = None) ->
  search_from i (pre ++ rest) = Some ((i + length pre)%nat, u).
Proof.
  revert i. induction pre as [|c pre IH]; intros i Hm Hl.
  - cbn [app length]. replace (i + 0)%nat with i by lia.
    destruct rest; cbn [search_from]; by rewrite Hm.
  - pose proof (Hl [] (c :: pre) eq_refl) as H0.
    cbn [app length search_from] in *. rewrite H0 by done.
    rewrite IH; [f_equal; f_equal; lia|done|].
    intros p q -> Hq. by apply (Hl (c :: p)).
Qed.

Lemma re_search_None_no_assignment (body : str) :
  re_search body = None ->
  forall pre m post url, body = pre ++ m ++ post -> ~ is_assignment m url.
Proof.
  intros H pre m post url -> Ha.
  apply search_from_None with (pre := pre) (rest := m ++ post) in H; [|done].
  rewrite (match_here_complete _ _ _ Ha) in H. done.
Qed.

Lemma re_search_Some_leftmost (body : str) (k : nat) (u : str) :
  re_search body = Some (k, u) ->
  forall pre m post url,
    body = pre ++ m ++ post -> is_assignment m url -> (k <= length pre)%nat.
Proof.
  intros H pre m post url Hb Ha.
  apply search_from_Some in H as (pre0 & rest & -> & -> & Hm & Hl). simpl.
  destruct (decide (length pre0 <= length pre)%nat) as [|Hgt]; [done|].
  exfalso.
  assert (exists q, pre0 = pre ++ q /\ q <> []) as (q & -> & Hq).
  { exists (drop (length pre) pre0). split.
    - rewrite <- (take_drop (length pre) pre0) at 1. f_equal.
      apply (f_equal (take (length pre))) in Hb.
      rewrite take_app_le in Hb by lia. rewrite take_app_length in Hb. done.
    - intros E. apply (f_equal length) in E. rewrite length_drop in E.
      simpl in E. lia. }
  rewrite <- app_assoc in Hb. apply app_inv_head in Hb.
  specialize (Hl pre q eq_refl Hq). rewrite Hb in Hl.
  rewrite (match_here_complete _ _ _ Ha) in Hl. done.
Qed.

(** ** The calendar *)

Lemma month_day_spec (leap : bool) (n : Z) :
  0 <= n < 365 + (if leap then 1 else 0) ->
  let '(m, d) := month_day leap n in
  1 <= m <= 12
  /\ 1 <= d <= (if (m =? 2) && leap then 29 else _DAYS_IN_MONTH m)
  /\ _DAYS_BEFORE_MONTH m + (if (2 <? m) && leap then 1 else 0) + d = n + 1.
Proof.
  intros Hn. unfold month_day. rewrite Z.shiftr_div_pow2 by lia.
  change (2 ^ 5) with 32.
  assert (Hm : 1 <= (n + 50) / 32 <= 12).
  { destruct leap; split; try (apply Z.div_le_lower_bound; lia);
      apply Z.lt_succ_r; apply Z.div_lt_upper_bound; lia. }
  remember ((n + 50) / 32) as m eqn:Em.
  assert (Hb : 32 * m <= n + 50 < 32 * m + 32).
  { subst m. pose proof (Z.mul_div_le (n + 50) 32).
    pose proof (Z.mul_succ_div_gt (n + 50) 32). lia. }
  clear Em.
  assert (m = 1 \/ m = 2 \/ m = 3 \/ m = 4 \/ m = 5 \/ m = 6 \/ m = 7
          \/ m = 8 \/ m = 9 \/ m = 10 \/ m = 11 \/ m = 12) as Hc by lia.
  destruct leap;
    repeat (destruct Hc as [->|Hc]); try subst m;
    repeat match goal with
    | |- context [Z.pos ?p - 1] =>
        let v := eval vm_compute in (Z.pos p - 1) in
        change (Z.pos p - 1) with v
    end; cbn;
    repeat match goal with
    | |- context [?a <? ?b] => destruct (Z.ltb_spec a b)
    end; cbn; lia.
Qed.

Lemma ord2ymd_unfold (n : Z) :
  _ord2ymd n =
    let n0 := n - 1 in
    let n400 := n0 / 146097 in let r400 := n0 mod 146097 in
    let n100 := r400 / 36524 in let r100 := r400 mod 36524 in
    let n4 := r100 / 1461 in let r4 := r100 mod 1461 in
    let n1 := r4 / 365 in let r := r4 mod 365 in
    let y := n400 * 400 + 1 + n100 * 100 + n4 * 4 + n1 in
    if (n1 =? 4) || (n100 =? 4) then (y - 1, 12, 31)
    else
      let '(m, d) :=
        month_day ((n1 =? 3) && (negb (n4 =? 24) || (n100 =? 3))) r in
      (y, m, d).
Proof.
  unfold _ord2ymd, month_day, _DI400Y, _DI100Y, _DI4Y. cbv zeta.
  repeat match goal with
  | |- context [if ?c then _ else _] => destruct c
  end; reflexivity.
Qed.

Lemma is_leap_spec (y : Z) :
  _is_leap y = true
  <-> (y mod 4 = 0 /\ (y mod 100 <> 0 \/ y mod 400 = 0)).
Proof.
  unfold _is_leap.
  destruct (Z.eqb_spec (y mod 4) 0), (Z.eqb_spec (y mod 100) 0),
    (Z.eqb_spec (y mod 400) 0); cbn; intuition congruence.
Qed.

(** [_ord2ymd] inverts [_ymd2ord] on the ordinals of the calendar, and its
    result is a date of the calendar. *)
Lemma ord2ymd_spec (n : Z) :
  1 <= n <= MAXORDINAL ->
  let '(y, m, d) := _ord2ymd n in
  1 <= y <= 9999 /\ 1 <= m <= 12 /\ 1 <= d <= _days_in_month y m
  /\ _ymd2ord y m d = n.
Proof.
  unfold MAXORDINAL. intros Hn. rewrite ord2ymd_unfold. cbv zeta.
  pose proof (Z.div_mod (n - 1) 146097 ltac:(lia)) as E400.
  pose proof (Z.mod_pos_bound (n - 1) 146097 ltac:(lia)) as B400.
  set (n400 := (n - 1) / 146097) in *. set (r400 := (n - 1) mod 146097) in *.
  pose proof (Z.div_mod r400 36524 ltac:(lia)) as E100.
  pose proof (Z.mod_pos_bound r400 36524 ltac:(lia)) as B100.
  set (n100 := r400 / 36524) in *. set (r100 := r400 mod 36524) in *.
  pose proof (Z.div_mod r100 1461 ltac:(lia)) as E4.
  pose proof (Z.mod_pos_bound r100 1461 ltac:(lia)) as B4.
  set (n4 := r100 / 1461) in *. set (r4 := r100 mod 1461) in *.
  pose proof (Z.div_mod r4 365 ltac:(lia)) as E1.
  pose proof (Z.mod_pos_bound r4 365 ltac:(lia)) as B1.
  set (n1 := r4 / 365) in *. set (r := r4 mod 365) in *.
  clearbody n400 r400 n100 r100 n4 r4 n1 r.
  assert (0 <= n400 <= 24) by lia.
  assert (0 <= n100 <= 4) by lia.
  assert (0 <= n4 <= 24) by lia.
  assert (0 <= n1 <= 4) by lia.
  assert (Hyear : forall k, 0 <= k ->
     _days_before_year (k + 1) = k * 365 + k / 4 - k / 100 + k / 400).
  { intros k _. unfold _days_before_year. cbv zeta.
    by replace (k + 1 - 1) with k by lia. }
  destruct (Z.eqb_spec n1 4) as [K1|K1];
    destruct (Z.eqb_spec n100 4) as [K100|K100]; cbn [orb].
  - lia.
  - split; [lia|]. split; [lia|].
    replace (n400 * 400 + 1 + n100 * 100 + n4 * 4 + n1 - 1)
      with ((n400 * 400 + n100 * 100 + n4 * 4 + 3) + 1) by lia.
    assert (L : _is_leap (n400 * 400 + n100 * 100 + n4 * 4 + 3 + 1) = true).
    { apply is_leap_spec. Z.div_mod_to_equations. lia. }
    unfold _days_in_month, _ymd2ord, _days_before_month.
    rewrite L, Hyear by lia. cbn.
    split; [lia|]. Z.div_mod_to_equations. lia.
  - split; [lia|]. split; [lia|].
    replace (n400 * 400 + 1 + n100 * 100 + n4 * 4 + n1 - 1)
      with ((n400 * 400 + 399) + 1) by lia.
    assert (L : _is_leap (n400 * 400 + 399 + 1) = true).
    { apply is_leap_spec. Z.div_mod_to_equations. lia. }
    unfold _days_in_month, _ymd2ord, _days_before_month.
    rewrite L, Hyear by lia. cbn.
    split; [lia|]. Z.div_mod_to_equations. lia.
  - set (leap := (n1 =? 3) && (negb (n4 =? 24) || (n100 =? 3))).
    assert (L : _is_leap (n400 * 400 + 1 + n100 * 100 + n4 * 4 + n1) = leap).
    { subst leap. apply eq_true_iff_eq. rewrite is_leap_spec.
      rewrite andb_true_iff, orb_true_iff, negb_true_iff, !Z.eqb_eq,
        Z.eqb_neq.
      Z.div_mod_to_equations. lia. }
    pose proof (month_day_spec leap r ltac:(destruct leap; lia)) as Hmd.
    destruct (month_day leap r) as [m d]. destruct Hmd as (Hm & Hd & Hs).
    split; [lia|]. split; [lia|].
    unfold _days_in_month, _ymd2ord, _days_before_month. rewrite L.
    split; [exact Hd|].
    replace (n400 * 400 + 1 + n100 * 100 + n4 * 4 + n1)
      with ((n400 * 400 + n100 * 100 + n4 * 4 + n1) + 1) by lia.
    rewrite Hyear by lia. Z.div_mod_to_equations. lia.
Qed.

(** ** Numbers and dates as text, and their quoting *)

(** A character of a decimal number or of a date: a digit or the hyphen. *)
Lemma uint_chars_plain (d : Decimal.uint) : Forall plain (uint_chars d).
Proof. induction d; simpl; constructor; try done; by left. Qed.

Lemma str_of_int_plain (z : Z) : Forall plain (str_of_int z).
Proof.
  unfold str_of_int. destruct (Z.to_int z).
  - apply uint_chars_plain.
  - constructor; [by right|apply uint_chars_plain].
Qed.

Lemma digit_range (z : Z) : (48 <= digit z <= 57)%N.
Proof.
  unfold digit. pose proof (Z.mod_pos_bound z 10 ltac:(lia)). lia.
Qed.

Lemma is_digit_digit (z : Z) : is_digit (digit z) = true.
Proof.
  pose proof (digit_range z). unfold is_digit.
  apply andb_true_iff. split; apply N.leb_le; lia.
Qed.

Lemma digit_val_digit (z : Z) : digit_val (digit z) = z mod 10.
Proof.
  unfold digit_val, digit. pose proof (Z.mod_pos_bound z 10 ltac:(lia)). lia.
Qed.

Lemma strftime_plain (t : datetime) : Forall plain (strftime_Ymd t).
Proof.
  unfold strftime_Ymd, pad2. change (lit "-") with [45%N].
  rewrite !Forall_app. split; [apply str_of_int_plain|]. repeat split;
    repeat match goal with
    | |- Forall _ (_ :: _) => constructor
    | |- Forall _ [] => constructor
    end; try (left; apply is_digit_digit); by right.
Qed.

(** A year of four digits is written as its four digits. *)
Lemma str_of_int_year (y : Z) : 1000 <= y <= 9999 -> str_of_int y = pad4 y.
Proof.
  intros Hy.
  assert (forallb (fun k => bool_decide (str_of_int (1000 + Z.of_nat k)
                                         = pad4 (1000 + Z.of_nat k)))
                  (seq 0 (Z.to_nat 9000)) = true) as H
    by (vm_compute; reflexivity).
  rewrite forallb_forall in H.
  specialize (H (Z.to_nat (y - 1000))).
  replace (1000 + Z.of_nat (Z.to_nat (y - 1000))) with y in H by lia.
  apply bool_decide_eq_true in H; [done|]. apply in_seq. lia.
Qed.

Lemma read_Ymd_strftime (t : datetime) :
  1000 <= year t <= 9999 -> 0 <= month t <= 99 -> 0 <= day t <= 99 ->
  read_Ymd (strftime_Ymd t) = Some (year t, month t, day t).
Proof.
  intros Hy Hm Hd. unfold strftime_Ymd. rewrite (str_of_int_year _ Hy).
  unfold pad4, pad2.
  change (lit "-") with [45%N]. cbn [app read_Ymd forallb].
  rewrite !is_digit_digit. cbn [andb N.eqb Pos.eqb].
  rewrite !digit_val_digit. do 3 f_equal.
  - Z.div_mod_to_equations. lia.
  - Z.div_mod_to_equations. lia.
  - Z.div_mod_to_equations. lia.
Qed.

Lemma plain_safe (c : char) : plain c -> always_safe c = true /\ (c < 128)%N.
Proof.
  unfold plain, is_digit, always_safe. intros [H| ->]; [|done].
  apply andb_true_iff in H as [H1%N.leb_le H2%N.leb_le]. split; [|lia].
  rewrite !orb_true_iff, !andb_true_iff, !N.leb_le. lia.
Qed.

Lemma utf8_plain (s : str) : Forall plain s -> utf8 s = Some s.
Proof.
  induction 1 as [|c s Hc Hs IH]; [done|]. cbn [utf8].
  apply plain_safe in Hc as [_ Hc]. unfold utf8_char.
  apply N.ltb_lt in Hc. rewrite Hc, option_bind_Some, IH. done.
Qed.

Lemma quote_plus_plain (s : str) : Forall plain s -> quote_plus s = Some s.
Proof.
  intros H. unfold quote_plus. rewrite (utf8_plain _ H), option_bind_Some.
  f_equal. induction H as [|c s Hc Hs IH]; [done|].
  cbn [fmap list_fmap concat]. rewrite IH. unfold quote_byte.
  apply plain_safe in Hc as [-> _]. done.
Qed.

Lemma contains_app (t a b : str) : contains t (a ++ t ++ b) = true.
Proof.
  induction a as [|c a IH].
  - cbn [app]. destruct (t ++ b) eqn:E; cbn [contains]; rewrite <- ?E,
      strip_prefix_app; done.
  - cbn [app contains]. rewrite IH. by destruct (strip_prefix t (c :: a ++ t ++
      b)).
Qed.

Lemma contains_without (c : char) (t s : str) :
  c ∈ t -> c ∉ s -> contains t s = false.
Proof.
  intros Ht. induction s as [|x s IH]; intros Hs.
  - cbn [contains]. destruct (strip_prefix t []) eqn:E; [|done].
    apply strip_prefix_Some in E. symmetry in E. apply app_eq_nil in E as [->
        _].
    by apply elem_of_nil in Ht.
  - cbn [contains]. destruct (strip_prefix t (x :: s)) eqn:E.
    + apply strip_prefix_Some in E. exfalso. apply Hs. rewrite E.
      apply elem_of_app. by left.
    + apply IH. intros H. apply Hs. by right.
Qed.

Lemma urlencode_weight (epoch : Z) (a b : datetime) :
  urlencode [(lit "_", PInt epoch); (lit "startDate", PStr (strftime_Ymd a));
             (lit "endDate", PStr (strftime_Ymd b))]
  = Some (lit "_=" ++ str_of_int epoch ++ lit "&startDate=" ++ strftime_Ymd a
          ++ lit "&endDate=" ++ strftime_Ymd b).
Proof.
  unfold urlencode. cbn [encode_items param_str].
  rewrite (quote_plus_plain _ (str_of_int_plain epoch)).
  rewrite !(quote_plus_plain _ (strftime_plain _)).
  change (quote_plus (lit "_")) with (Some (lit "_")).
  change (quote_plus (lit "startDate")) with (Some (lit "startDate")).
  change (quote_plus (lit "endDate")) with (Some (lit "endDate")).
  rewrite !option_bind_Some. cbn [join]. by rewrite <- !app_assoc.
Qed.

(** ** Dates of the calendar *)

Lemma valid_date (t : datetime) :
  valid t = true ->
  1 <= year t <= 9999 /\ 1 <= month t <= 12
  /\ 1 <= day t <= _days_in_month (year t) (month t).
Proof.
  unfold valid. rewrite !andb_true_iff, !Z.leb_le. intros H. destruct_and!.
  lia.
Qed.

Lemma days_to_month (y m d : Z) :
  1 <= m <= 12 -> 1 <= d <= _days_in_month y m ->
  1 <= _days_before_month y m + d <= 365 + (if _is_leap y then 1 else 0).
Proof.
  unfold _days_in_month, _days_before_month. intros Hm Hd.
  assert (m = 1 \/ m = 2 \/ m = 3 \/ m = 4 \/ m = 5 \/ m = 6 \/ m = 7
          \/ m = 8 \/ m = 9 \/ m = 10 \/ m = 11 \/ m = 12) as Hc by lia.
  destruct (_is_leap y);
    repeat (destruct Hc as [Hc|Hc]); rewrite Hc in *; cbn in *; lia.
Qed.

Lemma toordinal_bounds (t : datetime) :
  valid t = true -> 1 <= toordinal t <= MAXORDINAL.
Proof.
  intros (Hy & Hm & Hd)%valid_date.
  pose proof (days_to_month _ _ _ Hm Hd) as Hb.
  unfold toordinal, _ymd2ord, _days_before_year, MAXORDINAL. cbv zeta.
  destruct (_is_leap (year t)) eqn:L.
  - apply is_leap_spec in L. Z.div_mod_to_equations. lia.
  - Z.div_mod_to_equations. lia.
Qed.

Lemma toordinal_unix (t : datetime) :
  valid t = true -> 1970 <= year t -> 719163 <= toordinal t.
Proof.
  intros (Hy & Hm & Hd)%valid_date Hu.
  pose proof (days_to_month _ _ _ Hm Hd) as Hb.
  unfold toordinal, _ymd2ord, _days_before_year. cbv zeta.
  Z.div_mod_to_equations. lia.
Qed.

Lemma read_Ymd_valid (t : datetime) :
  valid t = true -> 1000 <= year t ->
  read_Ymd (strftime_Ymd t) = Some (year t, month t, day t).
Proof.
  intros (? & ? & Hd)%valid_date Hy. apply read_Ymd_strftime; try lia.
  unfold _days_in_month in Hd. destruct (_ && _); [lia|].
  assert (_DAYS_IN_MONTH (month t) <= 31); [|lia].
  unfold _DAYS_IN_MONTH. repeat case_match; lia.
Qed.

(** Thirty days before a date of the Unix era is a date of the calendar. *)
Lemma sub_days_30 (now : datetime) :
  valid now = true -> 1970 <= year now ->
  exists start,
    sub_days now 30 = Some start /\ valid start = true
    /\ toordinal start = toordinal now - 30 /\ 1969 <= year start.
Proof.
  intros Hv Hu. pose proof (toordinal_bounds now Hv) as Hb.
  pose proof (toordinal_unix now Hv Hu) as Hl.
  unfold sub_days.
  destruct (Z.ltb_spec 0 (toordinal now - 30)); [|lia].
  destruct (Z.leb_spec (toordinal now - 30) MAXORDINAL); [|lia].
  cbn [andb].
  pose proof (ord2ymd_spec (toordinal now - 30) ltac:(lia)) as Ho.
  destruct (_ord2ymd (toordinal now - 30)) as [[y m] d].
  destruct Ho as (Hy & Hm & Hd & Ho).
  eexists. split; [reflexivity|]. split; [|split; [exact Ho|]].
  - revert Hv. unfold valid.
    cbn [year month day hour minute second microsecond].
    rewrite !andb_true_iff, !Z.leb_le. intros Hv. destruct_and!.
    split_and!; lia.
  - cbn [year]. pose proof (days_to_month _ _ _ Hm Hd) as Hb2.
    unfold _ymd2ord, _days_before_year in Ho. cbv zeta in Ho.
    destruct (_is_leap y); Z.div_mod_to_equations; lia.
Qed.

Lemma urlencode_calories (epoch : Z) (start end_ : option datetime) :
  urlencode
    (let query_params := [(lit "_", PInt epoch)] in
     let query_params :=
       match start with
       | Some st =>
           dict_set (lit "fromDate") (PStr (strftime_Ymd st)) query_params
       | None => query_params
       end in
     match end_ with
     | Some e =>
         dict_set (lit "untilDate") (PStr (strftime_Ymd e)) query_params
     | None => query_params
     end)
  = Some (lit "_=" ++ str_of_int epoch
          ++ match start with
             | Some st => lit "&fromDate=" ++ strftime_Ymd st
             | None => []
             end
          ++ match end_ with
             | Some e => lit "&untilDate=" ++ strftime_Ymd e
             | None => []
             end).
Proof.
  cbv zeta. unfold urlencode.
  destruct start as [a|], end_ as [b|];
    repeat (cbn [dict_set];
            match goal with
            | |- context [decide (?x = ?y)] =>
                destruct (decide (x = y)) as [Heq|_];
                [by vm_compute in Heq|]
            end);
    cbn [dict_set encode_items param_str];
    rewrite ?(quote_plus_plain _ (str_of_int_plain epoch)),
      ?(quote_plus_plain _ (strftime_plain _));
    change (quote_plus (lit "_")) with (Some (lit "_"));
    change (quote_plus (lit "fromDate")) with (Some (lit "fromDate"));
    change (quote_plus (lit "untilDate")) with (Some (lit "untilDate"));
    rewrite ?option_bind_Some; cbn [join];
    by rewrite <- ?app_assoc, ?app_nil_r.
Qed.

Lemma plain_not (c : char) (s : str) :
  Forall plain s -> ~ plain c -> c ∉ s.
Proof.
  intros Hs Hc Hin. rewrite Forall_forall in Hs. by apply Hc, Hs.
Qed.

Lemma lit_without (c : char) (s : str) :
  forallb (fun x => negb (x =? c)%N) s = true -> c ∉ s.
Proof.
  induction s as [|x s IH]; cbn [forallb].
  - intros _. apply not_elem_of_nil.
  - rewrite andb_true_iff, negb_true_iff, N.eqb_neq. intros [Hx Hs].
    apply not_elem_of_cons. split; [done|by apply IH].
Qed.

Lemma contains_mid (t a b s : str) :
  s = a ++ t ++ b -> contains t s = true.
Proof. intros ->. apply contains_app. Qed.

(** ** The decoder never runs out of fuel *)

Lemma span_length (f : char -> bool) (s a b : str) :
  span f s = (a, b) -> (length s = length a + length b)%nat.
Proof. intros (-> & _ & _)%span_spec. apply length_app. Qed.

Lemma skip_ws_length (s : str) : (length (skip_ws s) <= length s)%nat.
Proof.
  unfold skip_ws. destruct (span is_ws s) as [a b] eqn:E.
  apply span_length in E. simpl. lia.
Qed.

Lemma strip_prefix_length (p s r : str) :
  strip_prefix p s = Some r -> (length s = length p + length r)%nat.
Proof. intros ->%strip_prefix_Some. apply length_app. Qed.

Lemma decode_uXXXX_length (s r : str) (n : N) :
  decode_uXXXX s = Some (n, r) -> (length s = 4 + length r)%nat.
Proof.
  unfold decode_uXXXX. destruct s as [|a [|b [|c [|d s]]]]; try done.
  destruct (hex_val a), (hex_val b), (hex_val c), (hex_val d); try done.
  cbn. by intros [= _ ->].
Qed.

Lemma join_surrogates_length (uni ch : N) (r r' : str) :
  join_surrogates uni r = (ch, r') -> (length r' <= length r)%nat.
Proof.
  unfold join_surrogates. destruct (_ && _); [|by intros [= _ ->]].
  destruct r as [|x [|y r2]]; try by intros [= _ <-].
  destruct (_ && _); [|by intros [= _ <-]].
  destruct (decode_uXXXX r2) as [[uni2 r3]|] eqn:E; [|by intros [= _ <-]].
  apply decode_uXXXX_length in E.
  destruct (_ && _); intros [= _ <-]; simpl; lia.
Qed.

Lemma scanstring_length (f : nat) (s t r : str) :
  scanstring f s = Some (t, r) -> (length r < length s)%nat.
Proof.
  revert s t r. induction f as [|f IH]; intros s t r; [done|].
  cbn [scanstring]. destruct s as [|c s']; [done|].
  destruct (c =? 34)%N; [intros [= _ <-]; simpl; lia|].
  destruct (c =? 92)%N.
  - destruct s' as [|e s'']; [done|]. destruct (e =? 117)%N.
    + destruct (decode_uXXXX s'') as [[uni r0]|] eqn:E; [|done].
      apply decode_uXXXX_length in E. cbn [mbind option_bind].
      destruct (join_surrogates uni r0) as [ch r'] eqn:J.
      apply join_surrogates_length in J.
      destruct (scanstring f r') as [[t' r'']|] eqn:R; [|done].
      apply IH in R. intros [= _ <-]. simpl. lia.
    + destruct (backslash_escape e); [|done]. cbn [mbind option_bind].
      destruct (scanstring f s'') as [[t' r'']|] eqn:R; [|done].
      apply IH in R. intros [= _ <-]. simpl. lia.
  - destruct (c <? 32)%N; [done|].
    destruct (scanstring f s') as [[t' r'']|] eqn:R; [|done].
    apply IH in R. intros [= _ <-]. simpl. lia.
Qed.

Lemma scanstring_fuel (f1 f2 : nat) (s : str) :
  (length s <= f1)%nat -> (length s <= f2)%nat ->
  scanstring f1 s = scanstring f2 s.
Proof.
  revert f2 s. induction f1 as [|f1 IH]; intros f2 s H1 H2.
  - destruct s; [|simpl in H1; lia]. by destruct f2.
  - destruct f2 as [|f2]; [destruct s; [done|simpl in H2; lia]|].
    cbn [scanstring]. destruct s as [|c s']; [done|]. simpl in H1, H2.
    destruct (c =? 34)%N; [done|].
    destruct (c =? 92)%N.
    + destruct s' as [|e s'']; [done|]. simpl in H1, H2.
      destruct (e =? 117)%N.
      * destruct (decode_uXXXX s'') as [[uni r0]|] eqn:E; [|done].
        apply decode_uXXXX_length in E. cbn [mbind option_bind].
        destruct (join_surrogates uni r0) as [ch r'] eqn:J.
        apply join_surrogates_length in J.
        rewrite (IH f2 r') by lia. done.
      * destruct (backslash_escape e); [|done]. cbn [mbind option_bind].
        rewrite (IH f2 s'') by lia. done.
    + destruct (c <? 32)%N; [done|]. rewrite (IH f2 s') by lia. done.
Qed.

Lemma optional_length (c : char) (s a b : str) :
  optional c s = (a, b) -> (length b <= length s)%nat.
Proof.
  unfold optional. destruct s as [|x r]; [by intros [= _ <-]|].
  destruct (x =? c)%N; intros [= _ <-]; simpl; lia.
Qed.

Lemma digits_after_length (lead s r a b : str) :
  (length r <= length s)%nat ->
  digits_after lead s r = (a, b) -> (length b <= length s)%nat.
Proof.
  unfold digits_after. intros Hr.
  destruct (span is_digit r) as [ds r'] eqn:E. apply span_length in E.
  destruct ds; intros [= _ <-]; lia.
Qed.

Lemma match_number_length (s r : str) (v : outcome pyvalue) :
  match_number s = Some (v, r) -> (length r < length s)%nat.
Proof.
  unfold match_number.
  destruct (optional 45%N s) as [sign s1] eqn:E0.
  apply optional_length in E0.
  assert (forall p : str * str,
            match s1 with
            | c :: r0 =>
                if (c =? 48)%N then Some ([48%N], r0)
                else if is_digit c then Some (span is_digit s1) else None
            | [] => None
            end = Some p -> (length p.2 < length s1)%nat) as H1.
  { intros p. destruct s1 as [|c r0]; [done|].
    destruct (c =? 48)%N; [intros [= <-]; simpl; lia|].
    destruct (is_digit c) eqn:D; [|done]. intros [= <-].
    cbn [span]. rewrite D. destruct (span is_digit r0) as [a b] eqn:E.
    apply span_length in E. simpl. lia. }
  destruct (match s1 with [] => None | _ => _ end) as [[int_part s2]|];
    [|done].
  specialize (H1 _ eq_refl). cbn [snd] in H1. cbn [mbind option_bind].
  destruct (match s2 with [] => _ | _ => _ end) as [frac s3] eqn:E3.
  assert (length s3 <= length s2)%nat as H3.
  { destruct s2 as [|c r0]; [by injection E3 as _ <-|].
    destruct (c =? 46)%N; [|by injection E3 as _ <-].
    eapply digits_after_length; [|exact E3]. simpl. lia. }
  destruct (match s3 with [] => _ | _ => _ end) as [exp s4] eqn:E4.
  assert (length s4 <= length s3)%nat as H4.
  { destruct s3 as [|e r0]; [by injection E4 as _ <-|].
    destruct (_ || _); [|by injection E4 as _ <-].
    destruct (match r0 with [] => _ | _ => _ end) as [sg r1] eqn:E5.
    eapply digits_after_length; [|exact E4].
    destruct r0 as [|g r']; [injection E5 as _ <-; simpl; lia|].
    destruct (_ || _); injection E5 as _ <-; simpl; lia. }
  destruct frac, exp; intros [= _ <-]; lia.
Qed.

Lemma scan_scalar_length (s r : str) (v : pyvalue) :
  scan_scalar s = Return (v, r) -> (length r < length s)%nat.
Proof.
  unfold scan_scalar.
  destruct (strip_prefix (lit "null") s) eqn:E1.
  { apply strip_prefix_length in E1. intros [= _ <-]. simpl in E1. lia. }
  destruct (strip_prefix (lit "true") s) eqn:E2.
  { apply strip_prefix_length in E2. intros [= _ <-]. simpl in E2. lia. }
  destruct (strip_prefix (lit "false") s) eqn:E3.
  { apply strip_prefix_length in E3. intros [= _ <-]. simpl in E3. lia. }
  destruct (match_number s) as [[[v'|e] r']|] eqn:E4.
  { apply match_number_length in E4. by intros [= _ <-]. }
  { done. }
  destruct (strip_prefix (lit "NaN") s) eqn:E5.
  { apply strip_prefix_length in E5. intros [= _ <-]. simpl in E5. lia. }
  destruct (strip_prefix (lit "Infinity") s) eqn:E6.
  { apply strip_prefix_length in E6. intros [= _ <-]. simpl in E6. lia. }
  destruct (strip_prefix (lit "-Infinity") s) eqn:E7; [|done].
  apply strip_prefix_length in E7. intros [= _ <-]. simpl in E7. lia.
Qed.

(** A value, a list or an object that is read takes up characters. *)
Lemma scan_length (f : nat) :
  (forall d s v r,
     scan_once f d s = Return (v, r) -> (length r < length s)%nat)
  /\ (forall d s acc v r,
        array_loop f d s acc = Return (v, r) -> (length r < length s)%nat)
  /\ (forall d s acc v r,
        object_loop f d s acc = Return (v, r) -> (length r < length s)%nat).
Proof.
  induction f as [|f (IHs & IHa & IHo)]; [done|]. split_and!.
  - intros d s v r. cbn [scan_once]. destruct s as [|c s']; [done|].
    destruct (c =? 34)%N.
    { destruct (scanstring _ s') as [[t r']|] eqn:E; [|done].
      apply scanstring_length in E. intros [= _ <-]. simpl. lia. }
    destruct (c =? 123)%N.
    { destruct d as [|d]; [done|].
      pose proof (skip_ws_length s') as Hw.
      destruct (skip_ws s') as [|x r0]; [done|]. simpl in Hw.
      destruct (x =? 125)%N; [intros [= _ <-]; simpl; lia|].
      destruct (x =? 34)%N; [|done]. intros H%IHo. simpl. lia. }
    destruct (c =? 91)%N.
    { destruct d as [|d]; [done|].
      pose proof (skip_ws_length s') as Hw.
      destruct (skip_ws s') as [|x r0]; [done|]. simpl in Hw.
      destruct (x =? 93)%N; [intros [= _ <-]; simpl; lia|].
      intros H%IHa. simpl in *. lia. }
    apply scan_scalar_length.
  - intros d s acc v r. cbn [array_loop].
    destruct (scan_once f d s) as [[v0 r0]|] eqn:E; [|done].
    apply IHs in E. cbn [mbind outcome_bind].
    pose proof (skip_ws_length r0) as Hw.
    destruct (skip_ws r0) as [|x r']; [done|]. simpl in Hw.
    destruct (x =? 93)%N; [intros [= _ <-]; lia|].
    destruct (x =? 44)%N; [|done]. intros H%IHa.
    pose proof (skip_ws_length r'). lia.
  - intros d s acc v r. cbn [object_loop].
    destruct (scanstring _ s) as [[k r0]|] eqn:E; [|done].
    apply scanstring_length in E. cbn [parsed mbind outcome_bind].
    pose proof (skip_ws_length r0) as Hw.
    destruct (skip_ws r0) as [|x r1]; [done|]. simpl in Hw.
    destruct (x =? 58)%N; [|done].
    destruct (scan_once f d (skip_ws r1)) as [[v0 r2]|] eqn:E2; [|done].
    apply IHs in E2. cbn [mbind outcome_bind].
    pose proof (skip_ws_length r1) as Hw1.
    pose proof (skip_ws_length r2) as Hw2.
    destruct (skip_ws r2) as [|y r3]; [done|]. simpl in Hw2.
    destruct (y =? 125)%N; [intros [= _ <-]; lia|].
    destruct (y =? 44)%N; [|done].
    pose proof (skip_ws_length r3) as Hw3.
    destruct (skip_ws r3) as [|z r4]; [done|]. simpl in Hw3.
    destruct (z =? 34)%N; [|done]. intros H%IHo. lia.
Qed.

(** With fuel above twice the length of the text the scanners give the
    same result whatever the fuel. *)
Lemma scan_fuel (f1 : nat) :
  (forall f2 d s,
     (2 * length s + 1 <= f1)%nat -> (2 * length s + 1 <= f2)%nat ->
     scan_once f1 d s = scan_once f2 d s)
  /\ (forall f2 d s acc,
        (2 * length s + 2 <= f1)%nat -> (2 * length s + 2 <= f2)%nat ->
        array_loop f1 d s acc = array_loop f2 d s acc)
  /\ (forall f2 d s acc,
        (2 * length s + 2 <= f1)%nat -> (2 * length s + 2 <= f2)%nat ->
        object_loop f1 d s acc = object_loop f2 d s acc).
Proof.
  induction f1 as [|f1 (IHs & IHa & IHo)]; [split_and!; intros; lia|].
  split_and!.
  - intros [|f2] d s H1 H2; [lia|]. cbn [scan_once].
    destruct s as [|c s']; [done|]. simpl in H1, H2.
    destruct (c =? 34)%N; [done|].
    destruct (c =? 123)%N.
    { destruct d as [|d]; [done|].
      pose proof (skip_ws_length s') as Hw.
      destruct (skip_ws s') as [|x r0]; [done|]. simpl in Hw.
      destruct (x =? 125)%N; [done|].
      destruct (x =? 34)%N; [|done]. apply IHo; lia. }
    destruct (c =? 91)%N; [|done].
    destruct d as [|d]; [done|].
    pose proof (skip_ws_length s') as Hw.
    destruct (skip_ws s') as [|x r0]; [done|]. simpl in Hw.
    destruct (x =? 93)%N; [done|]. apply IHa; simpl; lia.
  - intros [|f2] d s acc H1 H2; [lia|]. cbn [array_loop].
    rewrite (IHs f2 d s) by lia.
    destruct (scan_once f2 d s) as [[v0 r0]|] eqn:E; [|done].
    apply (proj1 (scan_length f2)) in E. cbn [mbind outcome_bind].
    pose proof (skip_ws_length r0) as Hw.
    destruct (skip_ws r0) as [|x r']; [done|]. simpl in Hw.
    destruct (x =? 93)%N; [done|].
    destruct (x =? 44)%N; [|done].
    pose proof (skip_ws_length r'). apply IHa; lia.
  - intros [|f2] d s acc H1 H2; [lia|]. cbn [object_loop].
    destruct (scanstring _ s) as [[k r0]|] eqn:E; [|done].
    apply scanstring_length in E. cbn [parsed mbind outcome_bind].
    pose proof (skip_ws_length r0) as Hw.
    destruct (skip_ws r0) as [|x r1]; [done|]. simpl in Hw.
    destruct (x =? 58)%N; [|done].
    pose proof (skip_ws_length r1) as Hw1.
    rewrite (IHs f2 d (skip_ws r1)) by lia.
    destruct (scan_once f2 d (skip_ws r1)) as [[v0 r2]|] eqn:E2; [|done].
    apply (proj1 (scan_length f2)) in E2. cbn [mbind outcome_bind].
    pose proof (skip_ws_length r2) as Hw2.
    destruct (skip_ws r2) as [|y r3]; [done|]. simpl in Hw2.
    destruct (y =? 125)%N; [done|].
    destruct (y =? 44)%N; [|done].
    pose proof (skip_ws_length r3) as Hw3.
    destruct (skip_ws r3) as [|z r4]; [done|]. simpl in Hw3.
    destruct (z =? 34)%N; [|done]. apply IHo; lia.
Qed.

(** The fuel [json_loads] hands to the scanner is enough: more of it gives
    the same value. *)
Lemma json_loads_fuel (s : str) (f d : nat) :
  (2 * length s + 2 <= f)%nat ->
  scan_once f d (skip_ws s) = scan_once (2 * length s + 2) d (skip_ws s).
Proof.
  intros H. pose proof (skip_ws_length s).
  apply (proj1 (scan_fuel f)); lia.
Qed.

(** The two limits of the interpreter: a list at the top needs room for
    one nested call, and a numeral of 4301 digits is refused by [int]. *)
Lemma json_loads_no_headroom (s : str) :
  json_loads 0 (lit "[" ++ s) = Raise RecursionError.
Proof. unfold json_loads. cbn. reflexivity. Qed.

(** ** Runs of the client *)

Ltac run_step :=
  unfold bind, log, get_self, set_session, session_post, session_get,
    session_request, lift, loads, raise, ret;
  cbn [self wire logged session username password cookies status_code text
       cookie_updates fst snd].

Lemma authenticate_login_rejected
    (service : list request -> request -> reply)
    (st : state) (sess : Session) (r : response) :
  session (self st) = Some sess ->
  service (wire st) (login_request (self st) (cookies sess)) = Responded r ->
  status_code r <> 200 ->
  _authenticate service st = (Raise bad_credentials, st_after_login st sess r).
Proof.
  intros Hs Hr Hc. unfold _authenticate. run_step. rewrite Hs.
  fold (login_request (self st) (cookies sess)). rewrite Hr.
  run_step. destruct (Z.eqb_spec (status_code r) 200) as [|_]; [done|].
  cbn [negb]. unfold st_after_login, with_jar. by rewrite <- app_assoc.
Qed.

Lemma authenticate_no_ticket (service : list request -> request -> reply)
    (st : state) (sess : Session) (r : response) (e : exn) :
  session (self st) = Some sess ->
  service (wire st) (login_request (self st) (cookies sess)) = Responded r ->
  status_code r = 200 ->
  _extract_auth_ticket_url (text r) = Raise e ->
  _authenticate service st = (Raise e, st_after_login st sess r).
Proof.
  intros Hs Hr Hc He. unfold _authenticate. run_step. rewrite Hs.
  fold (login_request (self st) (cookies sess)). rewrite Hr.
  run_step. rewrite Hc, He. cbn [negb Z.eqb Pos.eqb].
  unfold st_after_login, with_jar. by rewrite <- app_assoc.
Qed.

(** Once the ticket is claimed, what is left of [_authenticate] is the
    warm-up call. *)
Lemma authenticate_claimed (service : list request -> request -> reply)
    (st : state) (sess : Session) (r1 : response) (u : str) (r2 : response) :
  session (self st) = Some sess ->
  service (wire st) (login_request (self st) (cookies sess)) = Responded r1 ->
  status_code r1 = 200 ->
  _extract_auth_ticket_url (text r1) = Return u ->
  service (wire st ++ [login_request (self st) (cookies sess)])
          (claim_request sess r1 u) = Responded r2 ->
  status_code r2 = 200 ->
  _authenticate service st =
    let st2 := st_after_claim st sess r1 u r2 in
    match service (wire st2) (warmup_request sess r1 r2) with
    | Responded r3 =>
        (Return tt,
         {| self := with_jar (self st)
                      (update_jar (jar_of st2) (cookie_updates r3));
            wire := wire st2 ++ [warmup_request sess r1 r2];
            logged := logged st2 |})
    | Failed e =>
        (Raise e,
         {| self := self st2; wire := wire st2 ++ [warmup_request sess r1 r2];
            logged := logged st2 |})
    end.
Proof.
  intros Hs H1 Hc1 He H2 Hc2. unfold _authenticate. run_step. rewrite Hs.
  fold (login_request (self st) (cookies sess)). rewrite H1.
  run_step. rewrite Hc1, He. cbn [negb Z.eqb Pos.eqb]. run_step.
  unfold claim_request, get_request in H2 |- *. rewrite H2. run_step.
  rewrite Hc2. cbn [negb Z.eqb Pos.eqb]. run_step.
  cbv zeta.
  unfold st_after_claim, warmup_request, get_request, jar_of, with_jar,
    claim_request, get_request.
  cbn [self wire logged session cookies username password].
  rewrite <- !app_assoc. cbn [app].
  match goal with
  | |- context [match ?x with Responded _ => _ | Failed _ => _ end] =>
      destruct x
  end; reflexivity.
Qed.

Lemma require_session_connected {A : Type} (f : M A) (st : state) :
  connected st -> require_session f st = f st.
Proof.
  unfold connected, require_session. by destruct (session (self st)).
Qed.

Lemma authenticate_connected (service : list request -> request -> reply)
    (st : state) :
  connected st -> connected (_authenticate service st).2.
Proof.
  unfold connected. destruct (session (self st)) as [sess|] eqn:Hs; [|done].
  intros _. unfold _authenticate. run_step. rewrite Hs.
  destruct (service _ _) as [r1|e1]; [|run_step; by rewrite Hs].
  run_step. destruct (negb _); [done|].
  destruct (_extract_auth_ticket_url _) as [u|e]; [|done]. run_step.
  destruct (service _ _) as [r2|e2]; [|by run_step].
  run_step. destruct (negb _); [done|]. run_step.
  destruct (service _ _) as [r3|e3]; by run_step.
Qed.

Lemma disconnect_session (st : state) :
  session (self (disconnect st).2) = None.
Proof.
  unfold disconnect. run_step.
  by destruct (session (self st)) eqn:E; run_step.
Qed.

Lemma decode_decoded (headroom : nat) (st : state) (r : response) :
  decoded headroom st r (decode headroom r st)
  /\ wire (decode headroom r st).2 = wire st.
Proof.
  unfold decoded, decode, loads.
  destruct (Z.eqb_spec (status_code r) 200) as [E|E]; cbn [negb]; run_step;
    split_and!; done.
Qed.

Lemma get_then_decode_wire
    (service : list request -> request -> reply) (headroom : nat)
    (u : str) (st : state) (sess : Session) :
  session (self st) = Some sess ->
  wire (bind (session_get service u) (decode headroom) st).2
  = wire st ++ [get_request u (cookies sess)].
Proof.
  intros Hs. unfold bind, session_get, session_request. rewrite Hs.
  fold (get_request u (cookies sess)).
  destruct (service (wire st) _) as [r0|e]; [|done].
  set (st1 := {| self := _ |}).
  destruct (decode_decoded headroom st1 r0) as (_ & Hw). by rewrite Hw.
Qed.

(** On a connected client a GET followed by [decode] is settled by what
    the service answers. *)
Lemma get_then_decode_run (service : list request -> request -> reply)
    (headroom : nat) (u : str) (st : state) (sess : Session) :
  session (self st) = Some sess ->
  let req := get_request u (cookies sess) in
  bind (session_get service u) (decode headroom) st
  = match service (wire st) req with
    | Failed e =>
        (Raise e,
         {| self := self st; wire := wire st ++ [req]; logged := logged st |})
    | Responded r =>
        if negb (status_code r =? 200) then
          (Return PyNone,
           {| self := self (st_after_fetch st sess req r);
              wire := wire st ++ [req];
              logged := logged st ++ [(ERROR, fetch_failed r)] |})
        else (json_loads headroom (text r), st_after_fetch st sess req r)
    end.
Proof.
  intros Hs req. unfold bind, session_get, session_request. rewrite Hs.
  fold (get_request u (cookies sess)). fold req.
  destruct (service (wire st) req) as [r|e]; [|done].
  unfold decode. destruct (negb (status_code r =? 200)); by run_step.
Qed.

(** On a connected client each fetch is its one GET followed by
    [decode]. *)
Lemma get_weight_run (service : list request -> request -> reply)
    (headroom : nat) (now : datetime) (epoch : Z)
    (start end_ : option datetime) (st : state) (sess : Session)
    (s e : datetime) :
  session (self st) = Some sess ->
  window now start end_ = Some (s, e) ->
  get_weight service headroom now epoch start end_ st
  = bind (session_get service (url (weight_request epoch s e (cookies sess))))
         (decode headroom) st.
Proof.
  intros Hs Hw. unfold get_weight, require_session. rewrite Hs.
  unfold window in Hw. cbv zeta in Hw. destruct start as [s0|].
  - injection Hw as -> ->. by rewrite urlencode_weight.
  - destruct (sub_days _ 30) as [s0|]; [|done]. injection Hw as -> ->.
    by rewrite urlencode_weight.
Qed.

Lemma get_calories_run (service : list request -> request -> reply)
    (headroom : nat) (epoch : Z) (start end_ : option datetime)
    (st : state) (sess : Session) :
  session (self st) = Some sess ->
  get_calories service headroom epoch start end_ st
  = bind (session_get service
            (url (calories_request (self st) epoch start end_
                    (cookies sess))))
         (decode headroom) st.
Proof.
  intros Hs. unfold get_calories, require_session. rewrite Hs.
  unfold bind at 1, get_self. cbn [fst snd].
  rewrite urlencode_calories.
  replace (url (calories_request (self st) epoch start end_ (cookies sess)))
    with (foldl (fun u metric => u ++ lit "&metricId=" ++ str_of_int metric)
            (WELLNESS_URL ++ username (self st) ++ lit "?"
             ++ (lit "_=" ++ str_of_int epoch
                 ++ match start with
                    | Some st0 => lit "&fromDate=" ++ strftime_Ymd st0
                    | None => []
                    end
                 ++ match end_ with
                    | Some e => lit "&untilDate=" ++ strftime_Ymd e
                    | None => []
                    end)) metric_ids); [done|].
  unfold calories_request, get_request, calories_query, metric_ids.
  cbn [url foldl].
  change (str_of_int 23) with (lit "23").
  change (str_of_int 41) with (lit "41").
  change (str_of_int 42) with (lit "42").
  rewrite <- !app_assoc. reflexivity.
Qed.

(** * The claims *)

(** C1.  The claim: a [connect] whose authentication raises leaves the
    client without a session, so that a later fetch is refused.  The code
    stores the new session before it authenticates and never takes it
    back: after a [connect] that raised, [self.session] is set and the guard
    of [require_session] lets every wrapped method run. *)
Theorem connect_failure_keeps_session
    (service : list request -> request -> reply) (st st' : state) (e : exn) :
  connect service st = (Raise e, st') ->
  connected st'
  /\ (forall (A : Type) (f : M A), require_session f st' = f st').
Proof.
  intros H.
  assert (C : connected st').
  { replace st' with (connect service st).2 by (by rewrite H).
    unfold connect. run_step. by apply authenticate_connected. }
  split; [done|]. intros A f. by apply require_session_connected.
Qed.

Lemma connect_failure_keeps_session_witness :
  connect service_401 st_fresh
  = (Raise bad_credentials, (connect service_401 st_fresh).2)
  /\ connected (connect service_401 st_fresh).2
  /\ (forall (A : Type) (f : M A),
        require_session f (connect service_401 st_fresh).2
        = f (connect service_401 st_fresh).2).
Proof.
  assert (H : connect service_401 st_fresh
              = (Raise bad_credentials, (connect service_401 st_fresh).2))
    by reflexivity.
  split; [exact H|].
  exact (connect_failure_keeps_session service_401 st_fresh _ _ H).
Defined.

(** The fetch that follows the failed [connect] of the witness is not
    refused: it sends its GET and comes back with the soft failure. *)
Example fetch_after_failed_connect :
  let st' := (connect service_401 st_fresh).2 in
  let res := get_weight service_401 headroom_900 (noon 2024 3 1) 1700000000
      None None st' in
  res.1 = Return PyNone /\ length (wire res.2) = 2%nat.
Proof. vm_compute. done. Qed.

(** C2, as amended.  When the login response has a status other than 200,
    [_authenticate] raises the credentials error after the login POST alone;
    the jar is then the jar it started from with the cookies of that
    response filed in it, and is unchanged when the response sets none. *)
Theorem authenticate_rejected_login
    (service : list request -> request -> reply)
    (st : state) (sess : Session) (r : response) :
  session (self st) = Some sess ->
  service (wire st) (login_request (self st) (cookies sess)) = Responded r ->
  status_code r <> 200 ->
  _authenticate service st = (Raise bad_credentials, st_after_login st sess r)
  /\ wire (st_after_login st sess r)
     = wire st ++ [login_request (self st) (cookies sess)]
  /\ jar_of (st_after_login st sess r)
     = update_jar (jar_of st) (cookie_updates r)
  /\ (cookie_updates r = [] -> jar_of (st_after_login st sess r) = jar_of st).
Proof.
  intros Hs Hr Hc. split; [by apply authenticate_login_rejected|].
  split; [done|]. unfold jar_of. rewrite Hs. cbn. split; [done|].
  by intros ->.
Qed.

Lemma authenticate_rejected_login_witness :
  _authenticate service_401 st_connected
  = (Raise bad_credentials,
     st_after_login st_connected {| cookies := ∅ |}
       {| status_code := 401; text := lit "denied";
          cookie_updates := [(garmin_cookie, Some (lit "1"))] |})
  /\ jar_of (st_after_login st_connected {| cookies := ∅ |}
               {| status_code := 401; text := lit "denied";
                  cookie_updates := [(garmin_cookie, Some (lit "1"))] |})
     = update_jar (jar_of st_connected) [(garmin_cookie, Some (lit "1"))].
Proof.
  destruct (authenticate_rejected_login service_401 st_connected
              {| cookies := ∅ |}
              {| status_code := 401; text := lit "denied";
                 cookie_updates := [(garmin_cookie, Some (lit "1"))] |}
              eq_refl eq_refl ltac:(by vm_compute))
    as (H1 & _ & H2 & _).
  exact (conj H1 H2).
Defined.

(** C2, as stated, fails: the rejected login of [service_401] sets a cookie,
    and the jar after the failed authentication is not the jar before it. *)
Lemma rejected_login_changes_jar :
  (_authenticate service_401 st_connected).1 = Raise bad_credentials
  /\ jar_of st_connected !! garmin_cookie = None
  /\ jar_of (_authenticate service_401 st_connected).2 !! garmin_cookie
     = Some (lit "1")
  /\ jar_of (_authenticate service_401 st_connected).2 <> jar_of st_connected.
Proof.
  assert (H : jar_of (_authenticate service_401 st_connected).2
              = <[garmin_cookie := lit "1"]> ∅) by reflexivity.
  split; [reflexivity|]. split; [reflexivity|]. rewrite H.
  split; [apply lookup_insert_eq|].
  intros E. apply (f_equal (fun j => j !! garmin_cookie)) in E.
  rewrite lookup_insert_eq in E. discriminate E.
Qed.

(** C3, as amended.  When the leftmost place of the body where the pattern
    matches holds an assignment of an [https:] URL (at least one character
    after the colon, none of them a double quote), the extractor returns
    that URL with every backslash removed. *)
Theorem extract_leftmost_https_assignment (pre m post url : str) :
  is_assignment m url ->
  (forall pre' m' post' url',
     pre ++ m ++ post = pre' ++ m' ++ post' -> is_assignment m' url' ->
     (length pre <= length pre')%nat) ->
  _extract_auth_ticket_url (pre ++ m ++ post)
  = Return (remove_char backslash url).
Proof.
  intros Ha Hleft. unfold _extract_auth_ticket_url, re_search.
  rewrite (search_from_leftmost 0 pre (m ++ post) url);
    [done|by apply match_here_complete|].
  intros p q -> Hq.
  destruct (match_here (q ++ m ++ post)) as [u'|] eqn:E; [|done]. exfalso.
  apply match_here_sound in E as (m' & post' & E & Ha').
  specialize (Hleft p m' post' u'). rewrite <- app_assoc, E in Hleft.
  specialize (Hleft eq_refl Ha'). rewrite length_app in Hleft.
  destruct q; [done|simpl in Hleft; lia].
Qed.

Lemma extract_leftmost_https_assignment_witness :
  _extract_auth_ticket_url body_ticket
  = Return (lit "https://x/y?ticket=ABC").
Proof.
  apply (extract_leftmost_https_assignment (lit "var x; ")
           (lit "response_url = " ++ [dquote] ++ lit "https://x/y?ticket=ABC"
            ++ [dquote])
           (lit ";") (lit "https://x/y?ticket=ABC")).
  - exists [32%N], [32%N], (lit "//x/y?ticket=ABC").
    split; [reflexivity|]. split; [reflexivity|].
    split; [by repeat constructor|]. split; [by repeat constructor|].
    split; [by vm_compute|].
    apply Forall_forall. intros c Hc ->. revert Hc.
    by apply lit_without.
  - apply (re_search_Some_leftmost _ 7 (lit "https://x/y?ticket=ABC")).
    by vm_compute.
Defined.

(** C3, as stated, fails: an assignment whose URL is an [http:] one is not
    extracted. *)
Lemma extract_http_assignment_fails :
  body_http
  = lit "response_url" ++ lit " " ++ lit "=" ++ lit " " ++ [dquote]
    ++ lit "http://x/y?ticket=ABC" ++ [dquote]
  /\ _extract_auth_ticket_url body_http = Raise no_ticket_url.
Proof. split; reflexivity. Qed.



(** C5.  With neither bound given, and the clock at a date of the Unix
    era, [get_weight] sends one GET whose query is the cache buster, then
    [startDate] and [endDate], both written as YYYY-MM-DD and nothing more;
    [endDate] is the date of today and [startDate] the date whose ordinal is
    thirty less. *)
Theorem get_weight_default_window
    (service : list request -> request -> reply) (headroom : nat)
    (now : datetime)
    (epoch : Z) (st : state) (sess : Session) :
  session (self st) = Some sess -> valid now = true -> 1970 <= year now ->
  exists start,
    sub_days now 30 = Some start
    /\ valid start = true
    /\ toordinal start = toordinal now - 30
    /\ read_Ymd (strftime_Ymd start)
       = Some (year start, month start, day start)
    /\ read_Ymd (strftime_Ymd now) = Some (year now, month now, day now)
    /\ wire (get_weight service headroom now epoch None None st).2
       = wire st
         ++ [get_request
               (WEIGHT_DATE_RANGE_URL ++ lit "?" ++ lit "_="
                ++ str_of_int epoch
                ++ lit "&startDate=" ++ strftime_Ymd start
                ++ lit "&endDate=" ++ strftime_Ymd now)
               (cookies sess)].
Proof.
  intros Hs Hv Hu.
  destruct (sub_days_30 now Hv Hu) as (start & Hsub & Hvs & Hord & Hys).
  exists start. split_and!; try done; try (apply read_Ymd_valid; [done|lia]).
  unfold get_weight, require_session. rewrite Hs, Hsub, urlencode_weight.
  by apply get_then_decode_wire.
Qed.

Lemma get_weight_default_window_witness :
  exists start,
    sub_days (noon 2024 3 1) 30 = Some start
    /\ valid start = true
    /\ toordinal start = toordinal (noon 2024 3 1) - 30
    /\ read_Ymd (strftime_Ymd start)
       = Some (year start, month start, day start)
    /\ read_Ymd (strftime_Ymd (noon 2024 3 1)) = Some (2024, 3, 1)
    /\ wire (get_weight service_404 headroom_900 (noon 2024 3 1) 1700000000
        None None
               st_connected).2
       = wire st_connected
         ++ [get_request
               (WEIGHT_DATE_RANGE_URL ++ lit "?" ++ lit "_="
                ++ str_of_int 1700000000
                ++ lit "&startDate=" ++ strftime_Ymd start
                ++ lit "&endDate=" ++ strftime_Ymd (noon 2024 3 1))
               ∅].
Proof.
  apply (get_weight_default_window service_404 headroom_900 (noon 2024 3 1)
      1700000000
           st_connected {| cookies := ∅ |}).
  - reflexivity.
  - reflexivity.
  - by vm_compute.
Defined.

(** The window of the witness: thirty days before 2024-03-01, across the
    leap day. *)
Example default_window_2024 :
  (strftime_Ymd <$> sub_days (noon 2024 3 1) 30) = Some (lit "2024-01-31").
Proof. reflexivity. Qed.

(** C6, as amended.  On a connected client [get_calories] sends one GET to
    the wellness URL of the user with the query [calories_query]: the cache
    buster [_] first, [fromDate] exactly when a start was given and
    [untilDate] exactly when an end was given, each as [strftime] writes
    it, which is YYYY-MM-DD for a date whose year has four digits, and the
    three [metricId] parameters 23, 41, 42 in that order after everything
    else. *)
Theorem get_calories_query_string
    (service : list request -> request -> reply) (headroom : nat) (epoch : Z)
    (start end_ : option datetime) (st : state) (sess : Session) :
  session (self st) = Some sess ->
  let q := calories_query epoch start end_ in
  wire (get_calories service headroom epoch start end_ st).2
  = wire st
    ++ [get_request (WELLNESS_URL ++ username (self st) ++ lit "?" ++ q)
                    (cookies sess)]
  /\ (contains (lit "fromDate") q = true <-> start <> None)
  /\ (contains (lit "untilDate") q = true <-> end_ <> None)
  /\ (forall t, start = Some t ->
        contains (lit "&fromDate=" ++ strftime_Ymd t ++ lit "&") q = true
        /\ (valid t = true -> 1000 <= year t ->
            read_Ymd (strftime_Ymd t) = Some (year t, month t, day t)))
  /\ (forall t, end_ = Some t ->
        contains (lit "&untilDate=" ++ strftime_Ymd t ++ lit "&") q = true
        /\ (valid t = true -> 1000 <= year t ->
            read_Ymd (strftime_Ymd t) = Some (year t, month t, day t)))
  /\ (exists rest, q = lit "_=" ++ str_of_int epoch ++ lit "&" ++ rest)
  /\ (exists front,
        q = front ++ lit "&metricId=23" ++ lit "&metricId=41"
            ++ lit "&metricId=42"
        /\ contains (lit "metricId") front = false).
Proof.
  intros Hs q.
  pose proof (str_of_int_plain epoch) as Pe.
  assert (Pd : forall t, Forall plain (strftime_Ymd t)) by apply strftime_plain.
  assert (N102 : ~ plain 102%N) by (by intros [|]).
  assert (N117 : ~ plain 117%N) by (by intros [|]).
  assert (N99 : ~ plain 99%N) by (by intros [|]).
  assert (Hfrom : forall c, ~ plain c ->
            forallb (fun x => negb (x =? c)%N) (lit "&fromDate=") = true ->
            c ∉ match start with
                | Some st0 => lit "&fromDate=" ++ strftime_Ymd st0
                | None => []
                end).
  { intros c Hc Hl. destruct start; [|apply not_elem_of_nil].
    rewrite not_elem_of_app. split; [by apply lit_without|by apply plain_not]. }
  assert (Huntil : forall c, ~ plain c ->
            forallb (fun x => negb (x =? c)%N) (lit "&untilDate=") = true ->
            c ∉ match end_ with
                | Some e => lit "&untilDate=" ++ strftime_Ymd e
                | None => []
                end).
  { intros c Hc Hl. destruct end_; [|apply not_elem_of_nil].
    rewrite not_elem_of_app. split; [by apply lit_without|by apply plain_not]. }
  split_and!.
  - unfold get_calories, require_session. rewrite Hs.
    unfold bind at 1, get_self. cbn [fst snd].
    rewrite urlencode_calories. rewrite (get_then_decode_wire service headroom
        _ _ _ Hs).
    do 3 f_equal. subst q. unfold calories_query, metric_ids. cbn [foldl].
    change (str_of_int 23) with (lit "23").
    change (str_of_int 41) with (lit "41").
    change (str_of_int 42) with (lit "42").
    rewrite <- !app_assoc. reflexivity.
  - subst q. unfold calories_query. destruct start as [a|].
    + split; [done|]. intros _.
      apply (contains_mid _ (lit "_=" ++ str_of_int epoch ++ lit "&")
               (lit "=" ++ strftime_Ymd a
                ++ match end_ with
                   | Some e => lit "&untilDate=" ++ strftime_Ymd e
                   | None => []
                   end ++ lit "&metricId=23&metricId=41&metricId=42")).
      rewrite <- !app_assoc. reflexivity.
    + split; [|done]. intros H. exfalso. revert H.
      rewrite (contains_without 102%N);
        [done|by apply (list_elem_of_lookup_2 _ 0%nat)|].
      rewrite !not_elem_of_app. split_and!;
        [by apply lit_without|by apply plain_not|apply not_elem_of_nil|
         by apply Huntil|by apply lit_without].
  - subst q. unfold calories_query. destruct end_ as [b|].
    + split; [done|]. intros _.
      apply (contains_mid _
               (lit "_=" ++ str_of_int epoch
                ++ match start with
                   | Some st0 => lit "&fromDate=" ++ strftime_Ymd st0
                   | None => []
                   end ++ lit "&")
               (lit "=" ++ strftime_Ymd b
                ++ lit "&metricId=23&metricId=41&metricId=42")).
      rewrite <- !app_assoc. reflexivity.
    + split; [|done]. intros H. exfalso. revert H.
      rewrite (contains_without 117%N);
        [done|by apply (list_elem_of_lookup_2 _ 0%nat)|].
      rewrite !not_elem_of_app. split_and!;
        [by apply lit_without|by apply plain_not|by apply Hfrom|
         apply not_elem_of_nil|by apply lit_without].
  - intros t ->. split; [|apply read_Ymd_valid].
    subst q. unfold calories_query.
    apply (contains_mid _ (lit "_=" ++ str_of_int epoch)
             (match end_ with
              | Some e => lit "untilDate=" ++ strftime_Ymd e ++ lit "&"
              | None => []
              end ++ lit "metricId=23&metricId=41&metricId=42")).
    destruct end_; rewrite <- !app_assoc; reflexivity.
  - intros t ->. split; [|apply read_Ymd_valid].
    subst q. unfold calories_query.
    apply (contains_mid _
             (lit "_=" ++ str_of_int epoch
              ++ match start with
                 | Some st0 => lit "&fromDate=" ++ strftime_Ymd st0
                 | None => []
                 end)
             (lit "metricId=23&metricId=41&metricId=42")).
    rewrite <- !app_assoc. reflexivity.
  - subst q. unfold calories_query.
    destruct start, end_; eexists; rewrite <- ?app_assoc;
      do 2 (apply (f_equal (app _))); cbn [app]; reflexivity.
  - subst q. unfold calories_query.
    exists (lit "_=" ++ str_of_int epoch
            ++ match start with
               | Some st0 => lit "&fromDate=" ++ strftime_Ymd st0
               | None => []
               end
            ++ match end_ with
               | Some e => lit "&untilDate=" ++ strftime_Ymd e
               | None => []
               end).
    split.
    + rewrite <- !app_assoc. reflexivity.
    + apply (contains_without 99%N);
        [by apply (list_elem_of_lookup_2 _ 5%nat)|].
      rewrite !not_elem_of_app. split_and!;
        [by apply lit_without|by apply plain_not|by apply Hfrom|
         by apply Huntil].
Qed.

Lemma get_calories_query_string_witness :
  let q := calories_query 1700000000 (Some (noon 2024 1 1))
             (Some (noon 2024 1 31)) in
  q = lit "_=1700000000&fromDate=2024-01-01&untilDate=2024-01-31&metricId=23&metricId=41&metricId=42"
  /\ wire (get_calories service_404 headroom_900 1700000000
             (Some (noon 2024 1 1)) (Some (noon 2024 1 31)) st_connected).2
     = [get_request (WELLNESS_URL ++ lit "jo" ++ lit "?" ++ q) ∅]
  /\ (contains (lit "fromDate") q = true <-> Some (noon 2024 1 1) <> None)
  /\ read_Ymd (strftime_Ymd (noon 2024 1 1)) = Some (2024, 1, 1).
Proof.
  destruct (get_calories_query_string service_404 headroom_900 1700000000
              (Some (noon 2024 1 1)) (Some (noon 2024 1 31)) st_connected
              {| cookies := ∅ |} eq_refl) as (H1 & H2 & _ & H4 & _).
  split; [reflexivity|]. split; [exact H1|]. split; [exact H2|].
  apply (H4 _ eq_refl); [reflexivity|by vm_compute].
Defined.

(** C6, as stated, fails: a start in the year 5 goes out as [5-01-01],
    which is not of the form YYYY-MM-DD. *)
Lemma calories_year_5_not_padded :
  valid (noon 5 1 1) = true
  /\ wire (get_calories service_404 headroom_900 1700000000
             (Some (noon 5 1 1)) None st_connected).2
     = [get_request
          (WELLNESS_URL
           ++ lit "jo?_=1700000000&fromDate=5-01-01&metricId=23&metricId=41&metricId=42")
          ∅]
  /\ read_Ymd (strftime_Ymd (noon 5 1 1)) = None.
Proof. split; [reflexivity|]. split; [|reflexivity]. by vm_compute. Qed.

(** With neither bound the query has the cache buster and the metrics
    only. *)
Example calories_query_no_bounds :
  calories_query 1700000000 None None
  = lit "_=1700000000&metricId=23&metricId=41&metricId=42".
Proof. reflexivity. Qed.

(** C7.  When no part of the body is an assignment of the pattern, the
    extractor raises the ticket error, and so does [_authenticate] when such
    a body comes with a login status of 200, after the login POST alone. *)
Theorem extract_no_assignment_protocol_error (body : str) :
  (forall pre m post url, body = pre ++ m ++ post -> ~ is_assignment m url) ->
  _extract_auth_ticket_url body = Raise no_ticket_url
  /\ (forall (service : list request -> request -> reply) (st : state)
        (sess : Session) (r : response),
        session (self st) = Some sess ->
        service (wire st) (login_request (self st) (cookies sess))
        = Responded r ->
        status_code r = 200 -> text r = body ->
        _authenticate service st
        = (Raise no_ticket_url, st_after_login st sess r)).
Proof.
  intros H.
  assert (E : _extract_auth_ticket_url body = Raise no_ticket_url).
  { unfold _extract_auth_ticket_url, re_search.
    replace (search_from 0 body) with (@None (nat * str)); [done|].
    symmetry. apply search_from_None. intros pre rest ->.
    destruct (match_here rest) as [u|] eqn:E; [|done]. exfalso.
    apply match_here_sound in E as (m & post & -> & Ha). by eapply H. }
  split; [exact E|]. intros service st sess r Hs Hr Hc Ht.
  apply authenticate_no_ticket; try done. by rewrite Ht.
Qed.

Lemma extract_no_assignment_protocol_error_witness :
  _extract_auth_ticket_url (lit "<html>Invalid credentials</html>")
  = Raise no_ticket_url
  /\ (_authenticate (service_200 (lit "<html>Invalid credentials</html>"))
        st_connected).1
     = Raise no_ticket_url.
Proof.
  destruct (extract_no_assignment_protocol_error
              (lit "<html>Invalid credentials</html>")) as [H1 H2].
  - apply re_search_None_no_assignment. by vm_compute.
  - split; [exact H1|].
    by rewrite (H2 (service_200 (lit "<html>Invalid credentials</html>"))
                  st_connected {| cookies := ∅ |} _ eq_refl eq_refl eq_refl
                  eq_refl).
Defined.

(** C8.  On a connected client each fetch sends its one GET, and the
    response settles the call.  A status other than 200 gives [None], not
    an exception, and one [ERROR] record with the status and the body; a
    status of 200 gives what [json.loads] makes of the body, and no
    record.  Either way the request is on the wire and the cookies of the
    response are filed. *)
Theorem fetch_status_handling
    (service : list request -> request -> reply) (headroom : nat)
    (now : datetime) (epoch : Z) (start end_ : option datetime)
    (st : state) (sess : Session) :
  session (self st) = Some sess ->
  let handled (req : request) (res : outcome pyvalue * state) : Prop :=
    forall r, service (wire st) req = Responded r ->
      (status_code r <> 200 ->
       res = (Return PyNone,
              {| self := with_jar (self st)
                           (update_jar (cookies sess) (cookie_updates r));
                 wire := wire st ++ [req];
                 logged :=
                   logged st
                   ++ [(ERROR,
                        lit "failed to fetch json summary: code="
                        ++ str_of_int (status_code r)
                        ++ lit " text=" ++ text r)] |}))
      /\ (status_code r = 200 ->
          res = (json_loads headroom (text r),
                 {| self := with_jar (self st)
                              (update_jar (cookies sess) (cookie_updates r));
                    wire := wire st ++ [req];
                    logged := logged st |})) in
  (forall s e, window now start end_ = Some (s, e) ->
     handled (weight_request epoch s e (cookies sess))
             (get_weight service headroom now epoch start end_ st))
  /\ handled (calories_request (self st) epoch start end_ (cookies sess))
             (get_calories service headroom epoch start end_ st).
Proof.
  intros Hs handled.
  assert (G : forall u, handled (get_request u (cookies sess))
                (bind (session_get service u) (decode headroom) st)).
  { intros u r Hr. rewrite (get_then_decode_run _ _ _ _ _ Hs). cbv zeta.
    rewrite Hr. split; intros Hc.
    - by destruct (Z.eqb_spec (status_code r) 200).
    - by rewrite Hc. }
  split.
  - intros s e Hw. rewrite (get_weight_run _ _ _ _ _ _ _ _ _ _ Hs Hw).
    apply G.
  - rewrite (get_calories_run _ _ _ _ _ _ _ Hs). apply G.
Qed.

Lemma fetch_status_handling_witness :
  get_weight service_404 headroom_900 (noon 2024 3 1) 1700000000 None None
    st_connected
  = (Return PyNone,
     {| self := with_jar me ∅;
        wire := [get_request
                   (WEIGHT_DATE_RANGE_URL
                    ++ lit "?_=1700000000&startDate=2024-01-31&endDate=2024-03-01")
                   ∅];
        logged := [(ERROR,
                    lit "failed to fetch json summary: code=404 text=not found")] |})
  /\ get_calories service_404 headroom_900 1700000000 None None st_connected
     = (Return PyNone,
        {| self := with_jar me ∅;
           wire := [get_request
                      (WELLNESS_URL
                       ++ lit "jo?_=1700000000&metricId=23&metricId=41&metricId=42")
                      ∅];
           logged := [(ERROR,
                       lit "failed to fetch json summary: code=404 text=not found")] |})
  /\ get_weight (service_200 json_page) headroom_900 (noon 2024 3 1)
       1700000000 None None st_connected
     = (Return (PyDict [(lit "dateWeightList", PyList [])]),
        {| self := with_jar me ∅;
           wire := [get_request
                      (WEIGHT_DATE_RANGE_URL
                       ++ lit "?_=1700000000&startDate=2024-01-31&endDate=2024-03-01")
                      ∅];
           logged := [] |})
  /\ get_calories (service_200 json_page) headroom_900 1700000000 None None
       st_connected
     = (Return (PyDict [(lit "dateWeightList", PyList [])]),
        {| self := with_jar me ∅;
           wire := [get_request
                      (WELLNESS_URL
                       ++ lit "jo?_=1700000000&metricId=23&metricId=41&metricId=42")
                      ∅];
           logged := [] |}).
Proof.
  destruct (fetch_status_handling service_404 headroom_900 (noon 2024 3 1)
              1700000000 None None st_connected {| cookies := ∅ |} eq_refl)
    as [Hw Hc].
  destruct (fetch_status_handling (service_200 json_page) headroom_900
              (noon 2024 3 1) 1700000000 None None st_connected
              {| cookies := ∅ |} eq_refl) as [Hw' Hc'].
  split; [|split; [|split]].
  - destruct (Hw (noon 2024 1 31) (noon 2024 3 1) eq_refl _ eq_refl)
      as [H _].
    rewrite (H ltac:(by vm_compute)). vm_compute. reflexivity.
  - destruct (Hc _ eq_refl) as [H _].
    rewrite (H ltac:(by vm_compute)). vm_compute. reflexivity.
  - destruct (Hw' (noon 2024 1 31) (noon 2024 3 1) eq_refl _ eq_refl)
      as [_ H].
    rewrite (H eq_refl). vm_compute. reflexivity.
  - destruct (Hc' _ eq_refl) as [_ H].
    rewrite (H eq_refl). vm_compute. reflexivity.
Defined.

(** C9.  When the login and the ticket claim both answer 200, the warm-up
    GET is the request sent last, and whatever response it gets, of any
    status, [_authenticate] returns. *)
Theorem authenticate_warmup_tolerant
    (service : list request -> request -> reply)
    (st : state) (sess : Session) (r1 : response) (u : str) (r2 : response) :
  session (self st) = Some sess ->
  service (wire st) (login_request (self st) (cookies sess)) = Responded r1 ->
  status_code r1 = 200 ->
  _extract_auth_ticket_url (text r1) = Return u ->
  service (wire st ++ [login_request (self st) (cookies sess)])
          (claim_request sess r1 u) = Responded r2 ->
  status_code r2 = 200 ->
  wire (_authenticate service st).2
  = wire st ++ [login_request (self st) (cookies sess);
                claim_request sess r1 u; warmup_request sess r1 r2]
  /\ (forall r3,
        service (wire (st_after_claim st sess r1 u r2))
                (warmup_request sess r1 r2) = Responded r3 ->
        (_authenticate service st).1 = Return tt
        /\ logged (_authenticate service st).2
           = logged (st_after_claim st sess r1 u r2)).
Proof.
  intros Hs H1 Hc1 He H2 Hc2.
  rewrite (authenticate_claimed service st sess r1 u r2) by done. cbv zeta.
  split.
  - cbn [wire st_after_claim].
    match goal with
    | |- context [match ?x with Responded _ => _ | Failed _ => _ end] =>
        destruct x
    end; cbn [snd wire]; by rewrite <- app_assoc.
  - intros r3 ->. done.
Qed.

Lemma authenticate_warmup_tolerant_witness :
  service_sso (wire (st_after_claim st_connected {| cookies := ∅ |}
                       {| status_code := 200; text := ticket_page;
                          cookie_updates := [(garmin_cookie, Some (lit "1"))] |}
                       (lit "https://connect.garmin.com/modern?ticket=ST-01")
                       {| status_code := 200; text := json_page;
                          cookie_updates := [] |}))
              (warmup_request {| cookies := ∅ |}
                 {| status_code := 200; text := ticket_page;
                    cookie_updates := [(garmin_cookie, Some (lit "1"))] |}
                 {| status_code := 200; text := json_page;
                    cookie_updates := [] |})
  = Responded {| status_code := 500; text := lit "oops";
                 cookie_updates := [] |}
  /\ (_authenticate service_sso st_connected).1 = Return tt.
Proof.
  destruct (authenticate_warmup_tolerant service_sso st_connected
              {| cookies := ∅ |}
              {| status_code := 200; text := ticket_page;
                 cookie_updates := [(garmin_cookie, Some (lit "1"))] |}
              (lit "https://connect.garmin.com/modern?ticket=ST-01")
              {| status_code := 200; text := json_page;
                 cookie_updates := [] |}
              eq_refl eq_refl eq_refl eq_refl eq_refl eq_refl) as [_ H].
  split; [reflexivity|].
  exact (proj1 (H {| status_code := 500; text := lit "oops";
                     cookie_updates := [] |} eq_refl)).
Defined.

(** C10, as amended.  On a connected client, when the response to the GET
    of a fetch has status 200 and [json.loads] raises on its body, the
    fetch raises that exception, the decoding error for a body that is not
    JSON; and a fetch returns [None] only when the status is not 200 or the
    body is the JSON value null. *)
Theorem fetch_invalid_json_raises
    (service : list request -> request -> reply) (headroom : nat)
    (now : datetime) (epoch : Z) (start end_ : option datetime)
    (st : state) (sess : Session) :
  session (self st) = Some sess ->
  let strict (req : request) (res : outcome pyvalue * state) : Prop :=
    forall r, service (wire st) req = Responded r ->
      (status_code r = 200 ->
       forall e, json_loads headroom (text r) = Raise e ->
       res = (Raise e, st_after_fetch st sess req r))
      /\ (res.1 = Return PyNone ->
          status_code r <> 200
          \/ json_loads headroom (text r) = Return PyNone) in
  (forall s e, window now start end_ = Some (s, e) ->
     strict (weight_request epoch s e (cookies sess))
            (get_weight service headroom now epoch start end_ st))
  /\ strict (calories_request (self st) epoch start end_ (cookies sess))
            (get_calories service headroom epoch start end_ st).
Proof.
  intros Hs strict.
  assert (G : forall u, strict (get_request u (cookies sess))
                (bind (session_get service u) (decode headroom) st)).
  { intros u r Hr. rewrite (get_then_decode_run _ _ _ _ _ Hs). cbv zeta.
    rewrite Hr. split.
    - intros Hc e He. rewrite Hc, He. reflexivity.
    - destruct (Z.eqb_spec (status_code r) 200) as [Hc|Hc]; cbn [negb fst].
      + intros H. by right.
      + intros _. by left. }
  split.
  - intros s e Hw. rewrite (get_weight_run _ _ _ _ _ _ _ _ _ _ Hs Hw).
    apply G.
  - rewrite (get_calories_run _ _ _ _ _ _ _ Hs). apply G.
Qed.

Lemma fetch_invalid_json_raises_witness :
  (get_weight (service_200 (lit "<html>")) headroom_900 (noon 2024 3 1)
     1700000000 None None st_connected).1 = Raise JSONDecodeError
  /\ (get_calories (service_200 (lit "<html>")) headroom_900 1700000000
        None None st_connected).1 = Raise JSONDecodeError
  /\ wire (get_calories (service_200 (lit "<html>")) headroom_900 1700000000
             None None st_connected).2
     = [get_request
          (WELLNESS_URL
           ++ lit "jo?_=1700000000&metricId=23&metricId=41&metricId=42") ∅].
Proof.
  destruct (fetch_invalid_json_raises (service_200 (lit "<html>"))
              headroom_900 (noon 2024 3 1) 1700000000 None None st_connected
              {| cookies := ∅ |} eq_refl) as [Hw Hc].
  destruct (Hw (noon 2024 1 31) (noon 2024 3 1) eq_refl _ eq_refl)
    as [H1 _].
  destruct (Hc _ eq_refl) as [H2 _].
  assert (E : json_loads headroom_900 (lit "<html>") = Raise JSONDecodeError)
    by (vm_compute; reflexivity).
  rewrite (H1 eq_refl _ E), (H2 eq_refl _ E).
  split; [reflexivity|]. split; reflexivity.
Defined.

(** C10, as stated, fails: a 200 response whose body is the JSON value
    null makes the fetch return [None]. *)
Lemma fetch_null_body_returns_none :
  let res := get_weight (service_200 (lit "null")) headroom_900
               (noon 2024 3 1) 1700000000 None None st_connected in
  exists req r,
    wire res.2 = wire st_connected ++ [req]
    /\ service_200 (lit "null") (wire st_connected) req = Responded r
    /\ status_code r = 200
    /\ res.1 = Return PyNone.
Proof.
  eexists _, _. split; [reflexivity|]. split; [reflexivity|].
  split; reflexivity.
Qed.

(** The limits of the interpreter reach the caller of a fetch as well: a
    200 body that is a numeral of 4301 digits raises [ValueError], and a
    body nested deeper than the stack has room for raises
    [RecursionError]. *)
Example fetch_long_numeral :
  (get_weight (service_200 (repeat 49%N 4301)) headroom_900 (noon 2024 3 1)
     1700000000 None None st_connected).1 = Raise (int_too_long 4301)
  /\ (get_weight (service_200 (repeat 49%N 4300)) headroom_900 (noon 2024 3 1)
        1700000000 None None st_connected).1
     = Return (PyInt (int_of_digits (repeat 49%N 4300))).
Proof. split; by vm_compute. Qed.

Example fetch_deep_nesting :
  (get_calories (service_200 (lit "[[[1]]]")) 2 1700000000 None None
     st_connected).1 = Raise RecursionError
  /\ (get_calories (service_200 (lit "[[[1]]]")) 3 1700000000 None None
        st_connected).1
     = Return (PyList [PyList [PyList [PyInt 1]]]).
Proof. split; by vm_compute. Qed.

(** The scenario of the specification from end to end: login, ticket,
    warm-up of any status, then the weight document. *)
Example end_to_end :
  let st := (connect service_sso st_fresh).2 in
  (connect service_sso st_fresh).1 = Return tt
  /\ (get_weight service_sso headroom_900 (noon 2024 3 1) 1700000000 None None
      st).1
     = Return (PyDict [(lit "dateWeightList", PyList [])]).
Proof. split; reflexivity. Qed.

(** * Further properties of the code *)

(** ** The extractor *)

Lemma remove_char_without (c : char) (s : str) : c ∉ remove_char c s.
Proof.
  unfold remove_char. intros H. apply list_elem_of_In in H.
  apply List.filter_In in H as [_ H]. by rewrite N.eqb_refl in H.
Qed.

Lemma remove_char_keeps (c x : char) (s : str) :
  x ∉ s -> x ∉ remove_char c s.
Proof.
  unfold remove_char. intros Hs H. apply Hs. apply list_elem_of_In in H.
  apply List.filter_In in H as [H _]. by apply list_elem_of_In.
Qed.

Lemma remove_char_app (c : char) (a b : str) :
  remove_char c (a ++ b) = remove_char c a ++ remove_char c b.
Proof. apply List.filter_app. Qed.

(** X1.  A ticket URL the extractor returns begins with [https:] and holds
    neither a backslash nor a double quote. *)
Theorem extracted_url_shape (body u : str) :
  _extract_auth_ticket_url body = Return u ->
  (exists rest, u = lit "https:" ++ rest)
  /\ (backslash ∉ u) /\ (dquote ∉ u).
Proof.
  unfold _extract_auth_ticket_url, re_search.
  destruct (search_from 0 body) as [[k g]|] eqn:E; [|done].
  intros [= <-].
  apply search_from_Some in E as (pre & rest & _ & _ & Hm & _).
  apply match_here_sound in Hm as (m & post & _ & Ha).
  destruct Ha as (ws1 & ws2 & r & _ & -> & _ & _ & _ & Hq).
  split_and!.
  - exists (remove_char backslash r). by rewrite remove_char_app.
  - apply remove_char_without.
  - apply remove_char_keeps. rewrite not_elem_of_app. split.
    + by apply lit_without.
    + intros H. rewrite Forall_forall in Hq. by apply (Hq dquote).
Qed.

Lemma extracted_url_shape_witness :
  (exists rest,
     lit "https://connect.garmin.com/modern?ticket=ST-01"
     = lit "https:" ++ rest)
  /\ (backslash ∉ lit "https://connect.garmin.com/modern?ticket=ST-01")
  /\ (dquote ∉ lit "https://connect.garmin.com/modern?ticket=ST-01").
Proof.
  apply (extracted_url_shape ticket_page). reflexivity.
Defined.

(** X2.  The extractor returns a URL exactly when some part of the body is
    an assignment of the pattern; otherwise it raises. *)
Theorem extract_returns_iff_assignment (body : str) :
  (exists u, _extract_auth_ticket_url body = Return u)
  <-> (exists pre m post url,
         body = pre ++ m ++ post /\ is_assignment m url).
Proof.
  unfold _extract_auth_ticket_url, re_search. split.
  - intros [u H]. destruct (search_from 0 body) as [[k g]|] eqn:E; [|done].
    apply search_from_Some in E as (pre & rest & -> & _ & Hm & _).
    apply match_here_sound in Hm as (m & post & -> & Ha).
    by exists pre, m, post, g.
  - intros (pre & m & post & url & -> & Ha).
    destruct (search_from 0 (pre ++ m ++ post)) as [[k g]|] eqn:E;
      [by eexists|].
    exfalso. apply (re_search_None_no_assignment _ E pre m post url); done.
Qed.

(** ** The handshake, case by case *)

Lemma authenticate_login_failed (service : list request -> request -> reply)
    (st : state) (sess : Session) (e : exn) :
  session (self st) = Some sess ->
  service (wire st) (login_request (self st) (cookies sess)) = Failed e ->
  _authenticate service st
  = (Raise e,
     {| self := self st;
        wire := wire st ++ [login_request (self st) (cookies sess)];
        logged := logged st ++ [(INFO, lit "authenticating user ...")] |}).
Proof.
  intros Hs Hr. unfold _authenticate. run_step. rewrite Hs.
  fold (login_request (self st) (cookies sess)). by rewrite Hr.
Qed.

Lemma authenticate_claim_rejected
    (service : list request -> request -> reply)
    (st : state) (sess : Session) (r1 : response) (u : str) (r2 : response) :
  session (self st) = Some sess ->
  service (wire st) (login_request (self st) (cookies sess)) = Responded r1 ->
  status_code r1 = 200 ->
  _extract_auth_ticket_url (text r1) = Return u ->
  service (wire st ++ [login_request (self st) (cookies sess)])
          (claim_request sess r1 u) = Responded r2 ->
  status_code r2 <> 200 ->
  _authenticate service st
  = (Raise (ticket_not_claimed u r2), st_after_claim st sess r1 u r2).
Proof.
  intros Hs H1 Hc1 He H2 Hc2. unfold _authenticate. run_step. rewrite Hs.
  fold (login_request (self st) (cookies sess)). rewrite H1.
  run_step. rewrite Hc1, He. cbn [negb Z.eqb Pos.eqb]. run_step.
  unfold claim_request, get_request in H2 |- *. rewrite H2. run_step.
  destruct (Z.eqb_spec (status_code r2) 200) as [|_]; [done|]. cbn [negb].
  unfold st_after_claim, with_jar, claim_request, get_request.
  by rewrite <- !app_assoc.
Qed.

Lemma authenticate_claim_failed
    (service : list request -> request -> reply)
    (st : state) (sess : Session) (r1 : response) (u : str) (e : exn) :
  session (self st) = Some sess ->
  service (wire st) (login_request (self st) (cookies sess)) = Responded r1 ->
  status_code r1 = 200 ->
  _extract_auth_ticket_url (text r1) = Return u ->
  service (wire st ++ [login_request (self st) (cookies sess)])
          (claim_request sess r1 u) = Failed e ->
  _authenticate service st
  = (Raise e,
     {| self := with_jar (self st)
                  (update_jar (cookies sess) (cookie_updates r1));
        wire := wire st ++ [login_request (self st) (cookies sess);
                            claim_request sess r1 u];
        logged := logged st
                  ++ [(INFO, lit "authenticating user ...");
                      (DEBUG, lit "got auth response: " ++ text r1);
                      (DEBUG, lit "auth ticket url: " ++ [dquote] ++ u
                              ++ [dquote]);
                      (INFO, lit "claiming auth ticket ...")] |}).
Proof.
  intros Hs H1 Hc1 He H2. unfold _authenticate. run_step. rewrite Hs.
  fold (login_request (self st) (cookies sess)). rewrite H1.
  run_step. rewrite Hc1, He. cbn [negb Z.eqb Pos.eqb]. run_step.
  unfold claim_request, get_request in H2 |- *. rewrite H2. run_step.
  unfold with_jar. by rewrite <- !app_assoc.
Qed.

Lemma connect_authenticate (service : list request -> request -> reply)
    (st : state) :
  connect service st = _authenticate service (st_connecting st).
Proof. reflexivity. Qed.

(** Every way a handshake can go, from a state that holds a session. *)
Lemma authenticate_cases (service : list request -> request -> reply)
    (st : state) (sess : Session) :
  session (self st) = Some sess ->
  let login := login_request (self st) (cookies sess) in
  (exists e,
     service (wire st) login = Failed e
     /\ _authenticate service st
        = (Raise e,
           {| self := self st; wire := wire st ++ [login];
              logged := logged st
                        ++ [(INFO, lit "authenticating user ...")] |}))
  \/ (exists r1,
        service (wire st) login = Responded r1 /\ status_code r1 <> 200
        /\ _authenticate service st
           = (Raise bad_credentials, st_after_login st sess r1))
  \/ (exists r1 e,
        service (wire st) login = Responded r1 /\ status_code r1 = 200
        /\ _extract_auth_ticket_url (text r1) = Raise e
        /\ _authenticate service st = (Raise e, st_after_login st sess r1))
  \/ (exists r1 u e,
        service (wire st) login = Responded r1 /\ status_code r1 = 200
        /\ _extract_auth_ticket_url (text r1) = Return u
        /\ service (wire st ++ [login]) (claim_request sess r1 u) = Failed e
        /\ _authenticate service st
           = (Raise e,
              {| self := with_jar (self st)
                           (update_jar (cookies sess) (cookie_updates r1));
                 wire := wire st ++ [login; claim_request sess r1 u];
                 logged := logged (st_after_claim st sess r1 u r1) |}))
  \/ (exists r1 u r2,
        service (wire st) login = Responded r1 /\ status_code r1 = 200
        /\ _extract_auth_ticket_url (text r1) = Return u
        /\ service (wire st ++ [login]) (claim_request sess r1 u)
           = Responded r2
        /\ status_code r2 <> 200
        /\ _authenticate service st
           = (Raise (ticket_not_claimed u r2),
              st_after_claim st sess r1 u r2))
  \/ (exists r1 u r2 e,
        service (wire st) login = Responded r1 /\ status_code r1 = 200
        /\ _extract_auth_ticket_url (text r1) = Return u
        /\ service (wire st ++ [login]) (claim_request sess r1 u)
           = Responded r2
        /\ status_code r2 = 200
        /\ service (wire (st_after_claim st sess r1 u r2))
                   (warmup_request sess r1 r2) = Failed e
        /\ _authenticate service st
           = (Raise e,
              {| self := self (st_after_claim st sess r1 u r2);
                 wire := wire (st_after_claim st sess r1 u r2)
                         ++ [warmup_request sess r1 r2];
                 logged := logged (st_after_claim st sess r1 u r2) |}))
  \/ (exists r1 u r2 r3,
        service (wire st) login = Responded r1 /\ status_code r1 = 200
        /\ _extract_auth_ticket_url (text r1) = Return u
        /\ service (wire st ++ [login]) (claim_request sess r1 u)
           = Responded r2
        /\ status_code r2 = 200
        /\ service (wire (st_after_claim st sess r1 u r2))
                   (warmup_request sess r1 r2) = Responded r3
        /\ _authenticate service st
           = (Return tt,
              {| self := with_jar (self st)
                           (update_jar
                              (jar_of (st_after_claim st sess r1 u r2))
                              (cookie_updates r3));
                 wire := wire (st_after_claim st sess r1 u r2)
                         ++ [warmup_request sess r1 r2];
                 logged := logged (st_after_claim st sess r1 u r2) |})).
Proof.
  intros Hs login.
  destruct (service (wire st) login) as [r1|e1] eqn:H1.
  2: { left. exists e1. split; [done|]. by apply authenticate_login_failed. }
  right. destruct (decide (status_code r1 = 200)) as [Hc1|Hc1].
  2: { left. exists r1. split_and!; try done.
       by apply authenticate_login_rejected. }
  right. destruct (_extract_auth_ticket_url (text r1)) as [u|e] eqn:He.
  2: { left. exists r1, e. split_and!; try done.
       by apply authenticate_no_ticket. }
  right.
  destruct (service (wire st ++ [login]) (claim_request sess r1 u))
    as [r2|e2] eqn:H2.
  2: { left. exists r1, u, e2. split_and!; try done.
       by apply authenticate_claim_failed. }
  right. destruct (decide (status_code r2 = 200)) as [Hc2|Hc2].
  2: { left. exists r1, u, r2. split_and!; try done.
       by apply authenticate_claim_rejected. }
  right.
  pose proof (authenticate_claimed service st sess r1 u r2 Hs H1 Hc1 He H2
                Hc2) as Ha.
  cbv zeta in Ha.
  destruct (service (wire (st_after_claim st sess r1 u r2))
                    (warmup_request sess r1 r2)) as [r3|e3] eqn:H3.
  - right. exists r1, u, r2, r3. split_and!; done.
  - left. exists r1, u, r2, e3. split_and!; done.
Qed.

(** ** [connect] *)

(** X3.  When the login answers 200 with a ticket URL and the claim of the
    ticket answers another status, [connect] raises the runtime error that
    carries the URL, the status and the body; the login and the claim are
    the only requests sent, and the cookies of both stay in the jar. *)
Theorem connect_claim_rejected (service : list request -> request -> reply)
    (st : state) (r1 : response) (u : str) (r2 : response) :
  service (wire st) (login_request (self st) ∅) = Responded r1 ->
  status_code r1 = 200 ->
  _extract_auth_ticket_url (text r1) = Return u ->
  service (wire st ++ [login_request (self st) ∅])
          (claim_request {| cookies := ∅ |} r1 u) = Responded r2 ->
  status_code r2 <> 200 ->
  (connect service st).1
  = Raise (RuntimeError
             (lit "auth failure: failed to claim auth ticket: " ++ u
              ++ lit ": " ++ str_of_int (status_code r2) ++ [10%N]
              ++ text r2))
  /\ wire (connect service st).2
     = wire st ++ [login_request (self st) ∅;
                   claim_request {| cookies := ∅ |} r1 u]
  /\ jar_of (connect service st).2
     = update_jar (update_jar ∅ (cookie_updates r1)) (cookie_updates r2).
Proof.
  intros H1 Hc1 He H2 Hc2. rewrite connect_authenticate.
  rewrite (authenticate_claim_rejected service (st_connecting st)
             {| cookies := ∅ |} r1 u r2); done.
Qed.

Lemma connect_claim_rejected_witness :
  (connect service_claim_403 st_fresh).1
  = Raise (RuntimeError
             (lit "auth failure: failed to claim auth ticket: "
              ++ lit "https://connect.garmin.com/modern?ticket=ST-01"
              ++ lit ": " ++ lit "403" ++ [10%N] ++ lit "forbidden"))
  /\ length (wire (connect service_claim_403 st_fresh).2) = 2%nat.
Proof.
  destruct (connect_claim_rejected service_claim_403 st_fresh
              {| status_code := 200; text := ticket_page;
                 cookie_updates := [(garmin_cookie, Some (lit "1"))] |}
              (lit "https://connect.garmin.com/modern?ticket=ST-01")
              {| status_code := 403; text := lit "forbidden";
                 cookie_updates := [] |}
              eq_refl eq_refl eq_refl eq_refl ltac:(by vm_compute))
    as (H1 & H2 & _).
  split; [exact H1|]. by rewrite H2.
Defined.



Lemma connect_requests (service : list request -> request -> reply)
    (st : state) :
  exists rest,
    wire (connect service st).2
    = wire st ++ login_request (self st) ∅ :: rest
    /\ (length rest <= 2)%nat
    /\ Forall (fun q => method q = GET /\ params q = [] /\ data q = []) rest.
Proof.
  rewrite connect_authenticate.
  destruct (authenticate_cases service (st_connecting st) {| cookies := ∅ |}
              eq_refl)
    as [(e & _ & ->)|[(r1 & _ & _ & ->)|[(r1 & e & _ & _ & _ & ->)|
       [(r1 & u & e & _ & _ & _ & _ & ->)|[(r1 & u & r2 & _ & _ & _ & _ & _ &
           ->)|
       [(r1 & u & r2 & e & _ & _ & _ & _ & _ & _ & ->)|
        (r1 & u & r2 & r3 & _ & _ & _ & _ & _ & _ & ->)]]]]]];
    cbn [snd wire st_after_login st_after_claim st_connecting];
    rewrite <- ?app_assoc; cbn [app];
    eexists; (split; [reflexivity|]); (split; [simpl; lia|]);
    repeat constructor.
Qed.

(** X6.  [connect] always begins with a new session: its first request is
    the login POST carrying no cookie, also when the client held a session
    before; at most two requests follow, both GETs without parameters or
    form data, so the form of the login is the only place the password
    goes. *)
Theorem connect_starts_afresh (service : list request -> request -> reply)
    (st : state) :
  exists rest,
    wire (connect service st).2
    = wire st ++ login_request (self st) ∅ :: rest
    /\ (length rest <= 2)%nat
    /\ Forall (fun q => method q = GET /\ params q = [] /\ data q = []) rest.
Proof. apply connect_requests. Qed.

(** X7.  [connect] returns only after the whole handshake: the login and
    the ticket claim both answered 200, the login page held a ticket URL,
    and the warm-up call was answered; exactly these three requests were
    sent, and the session holds the cookies of the three responses, filed
    in that order. *)
Theorem connect_returns_after_handshake
    (service : list request -> request -> reply) (st st' : state) :
  connect service st = (Return tt, st') ->
  exists r1 u r2 r3,
    service (wire st) (login_request (self st) ∅) = Responded r1
    /\ status_code r1 = 200
    /\ _extract_auth_ticket_url (text r1) = Return u
    /\ service (wire st ++ [login_request (self st) ∅])
               (claim_request {| cookies := ∅ |} r1 u) = Responded r2
    /\ status_code r2 = 200
    /\ service (wire st ++ [login_request (self st) ∅;
                            claim_request {| cookies := ∅ |} r1 u])
               (warmup_request {| cookies := ∅ |} r1 r2) = Responded r3
    /\ wire st' = wire st ++ handshake (self st) r1 u r2
    /\ self st'
       = with_jar (self st)
           (update_jar
              (update_jar (update_jar ∅ (cookie_updates r1))
                          (cookie_updates r2))
              (cookie_updates r3)).
Proof.
  rewrite connect_authenticate. intros H.
  destruct (authenticate_cases service (st_connecting st) {| cookies := ∅ |}
              eq_refl)
    as [(e & _ & E)|[(r1 & _ & _ & E)|[(r1 & e & _ & _ & _ & E)|
       [(r1 & u & e & _ & _ & _ & _ & E)|[(r1 & u & r2 & _ & _ & _ & _ & _ & E)|
       [(r1 & u & r2 & e & _ & _ & _ & _ & _ & _ & E)|
        (r1 & u & r2 & r3 & H1 & Hc1 & He & H2 & Hc2 & H3 & E)]]]]]];
    rewrite E in H; try discriminate H.
  injection H as <-. exists r1, u, r2, r3.
  split_and!; try done.
  cbn [wire]. unfold handshake. cbn [wire st_after_claim st_connecting].
  by rewrite <- app_assoc.
Qed.

Lemma connect_returns_after_handshake_witness :
  exists r1 u r2 r3,
    service_sso (wire st_fresh) (login_request (self st_fresh) ∅)
    = Responded r1
    /\ status_code r1 = 200
    /\ _extract_auth_ticket_url (text r1) = Return u
    /\ service_sso (wire st_fresh ++ [login_request (self st_fresh) ∅])
                   (claim_request {| cookies := ∅ |} r1 u) = Responded r2
    /\ status_code r2 = 200
    /\ service_sso (wire st_fresh ++ [login_request (self st_fresh) ∅;
                                      claim_request {| cookies := ∅ |} r1 u])
                   (warmup_request {| cookies := ∅ |} r1 r2) = Responded r3
    /\ wire (connect service_sso st_fresh).2
       = wire st_fresh ++ handshake (self st_fresh) r1 u r2
    /\ self (connect service_sso st_fresh).2
       = with_jar (self st_fresh)
           (update_jar
              (update_jar (update_jar ∅ (cookie_updates r1))
                          (cookie_updates r2))
              (cookie_updates r3)).
Proof.
  apply (connect_returns_after_handshake service_sso st_fresh).
  vm_compute. reflexivity.
Defined.

(** X8.  [disconnect] after [connect], however [connect] ended, leaves the
    client without a session without sending or logging anything, and the
    fetches are then refused. *)
Theorem disconnect_after_connect
    (service : list request -> request -> reply) (headroom : nat)
    (now : datetime)
    (epoch : Z) (start end_ : option datetime) (st : state) :
  let st1 := (connect service st).2 in
  let st2 := (disconnect st1).2 in
  (disconnect st1).1 = Return tt
  /\ session (self st2) = None
  /\ wire st2 = wire st1 /\ logged st2 = logged st1
  /\ get_weight service headroom now epoch start end_ st2 = (Raise
      not_connected, st2)
  /\ get_calories service headroom epoch start end_ st2 = (Raise not_connected,
      st2).
Proof.
  intros st1 st2.
  assert (C : connected st1).
  { subst st1. rewrite connect_authenticate.
    by apply authenticate_connected. }
  assert (Hs : session (self st2) = None) by apply disconnect_session.
  unfold connected in C. subst st2. unfold disconnect in *. revert Hs.
  run_step. destruct (session (self st1)); [|done]. run_step. intros _.
  unfold get_weight, get_calories, require_session. cbn [self session].
  done.
Qed.

(** X9.  The [with] statement: when [__enter__] raises, the body does not
    run and the session that [connect] stored stays in place; when it
    returns, the body gets the client itself, its outcome is the outcome of
    the statement, and the session is gone afterwards whether the body
    returned or raised. *)
Theorem with_client_releases (service : list request -> request -> reply)
    (A : Type) (body : GarminClient -> M A) (st : state) :
  match connect service st with
  | (Raise e, s1) =>
      with_client service body st = (Raise e, s1) /\ connected s1
  | (Return _, s1) =>
      (with_client service body st).1 = (body (self s1) s1).1
      /\ session (self (with_client service body st).2) = None
      /\ wire (with_client service body st).2 = wire (body (self s1) s1).2
      /\ logged (with_client service body st).2
         = logged (body (self s1) s1).2
  end.
Proof.
  pose proof (authenticate_connected service (st_connecting st)
                ltac:(done)) as C.
  rewrite <- connect_authenticate in C.
  unfold with_client, __enter__, __exit__, bind.
  destruct (connect service st) as [[[]|e] s1]; cbv beta iota;
    [|split; [done|exact C]].
  unfold get_self. cbv beta iota.
  destruct (body (self s1) s1) as [o s2].
  unfold disconnect. run_step.
  destruct (session (self s2)) eqn:E; run_step; done.
Qed.

(** ** The fetches *)

Lemma get_weight_cases
    (service : list request -> request -> reply) (headroom : nat)
    (now : datetime) (epoch : Z) (start end_ : option datetime) (st : state) :
  (exists e, get_weight service headroom now epoch start end_ st = (Raise e,
      st))
  \/ exists u, get_weight service headroom now epoch start end_ st
               = bind (session_get service u) (decode headroom) st.
Proof.
  unfold get_weight, require_session.
  destruct (session (self st)); [|left; by eexists].
  destruct (match start with Some st0 => Some st0 | None => _ end);
    [|left; by eexists].
  destruct (urlencode _); [|left; by eexists]. right. by eexists.
Qed.

Lemma get_calories_cases
    (service : list request -> request -> reply) (headroom : nat)
    (epoch : Z) (start end_ : option datetime) (st : state) :
  (exists e, get_calories service headroom epoch start end_ st = (Raise e, st))
  \/ exists u, get_calories service headroom epoch start end_ st
               = bind (session_get service u) (decode headroom) st.
Proof.
  unfold get_calories, require_session.
  destruct (session (self st)); [|left; by eexists].
  unfold bind at 1, get_self. cbn [fst snd].
  destruct (urlencode _); [|left; by eexists]. right. by eexists.
Qed.

(** One GET and what is done with its answer. *)
Lemma get_then_decode_cases
    (service : list request -> request -> reply) (headroom : nat)
    (u : str) (st : state) (sess : Session) :
  session (self st) = Some sess ->
  let req := get_request u (cookies sess) in
  let res := bind (session_get service u) (decode headroom) st in
  wire res.2 = wire st ++ [req]
  /\ match service (wire st) req with
     | Failed e =>
         res = (Raise e,
                {| self := self st; wire := wire st ++ [req];
                   logged := logged st |})
     | Responded r =>
         self res.2
         = with_jar (self st) (update_jar (cookies sess) (cookie_updates r))
         /\ decoded headroom st r res
     end.
Proof.
  intros Hs req res. split; [by apply get_then_decode_wire|].
  subst res req. unfold bind, session_get, session_request. rewrite Hs.
  fold (get_request u (cookies sess)).
  destruct (service (wire st) _) as [r|e]; [|done].
  set (st1 := {| self := _ |}).
  split.
  - unfold decode, loads. destruct (negb _); by run_step.
  - destruct (decode_decoded headroom st1 r) as [Hd _]. exact Hd.
Qed.



Lemma sub_days_spec (t : datetime) (n : Z) :
  valid t = true -> 0 < toordinal t - n <= MAXORDINAL ->
  exists start,
    sub_days t n = Some start /\ valid start = true
    /\ toordinal start = toordinal t - n.
Proof.
  intros Hv Hb. unfold sub_days.
  destruct (Z.ltb_spec 0 (toordinal t - n)); [|lia].
  destruct (Z.leb_spec (toordinal t - n) MAXORDINAL); [|lia].
  cbn [andb].
  pose proof (ord2ymd_spec (toordinal t - n) ltac:(lia)) as Ho.
  destruct (_ord2ymd (toordinal t - n)) as [[y m] d].
  destruct Ho as (Hy & Hm & Hd & Ho).
  eexists. split; [reflexivity|]. split; [|exact Ho].
  revert Hv. unfold valid.
  cbn [year month day hour minute second microsecond].
  rewrite !andb_true_iff, !Z.leb_le. intros Hv. destruct_and!.
  split_and!; lia.
Qed.

(** The request [get_weight] sends for a window it has settled. *)
Lemma get_weight_window
    (service : list request -> request -> reply) (headroom : nat)
    (now : datetime) (epoch : Z) (start end_ : option datetime)
    (st : state) (sess : Session) (s e : datetime) :
  session (self st) = Some sess ->
  match end_ with Some x => x | None => now end = e ->
  match start with Some x => Some x | None => sub_days e 30 end = Some s ->
  get_weight service headroom now epoch start end_ st
  = bind (session_get service
            (WEIGHT_DATE_RANGE_URL ++ lit "?" ++ lit "_=" ++ str_of_int epoch
             ++ lit "&startDate=" ++ strftime_Ymd s
             ++ lit "&endDate=" ++ strftime_Ymd e))
         (decode headroom) st.
Proof.
  intros Hs He Hst. unfold get_weight, require_session.
  rewrite Hs, He, Hst, urlencode_weight. reflexivity.
Qed.

(** X10.  With both bounds given [get_weight] does not read the clock and
    does not compare the bounds: it sends the two dates as [strftime]
    writes them, a year below 1000 without leading zeros, also when the
    start is after the end. *)
Theorem get_weight_explicit_bounds
    (service : list request -> request -> reply) (headroom : nat)
    (now now' : datetime)
    (epoch : Z) (s e : datetime) (st : state) (sess : Session) :
  session (self st) = Some sess ->
  get_weight service headroom now epoch (Some s) (Some e) st
  = get_weight service headroom now' epoch (Some s) (Some e) st
  /\ wire (get_weight service headroom now epoch (Some s) (Some e) st).2
     = wire st
       ++ [get_request
             (WEIGHT_DATE_RANGE_URL ++ lit "?" ++ lit "_=" ++ str_of_int epoch
              ++ lit "&startDate=" ++ strftime_Ymd s
              ++ lit "&endDate=" ++ strftime_Ymd e)
             (cookies sess)].
Proof.
  intros Hs. split; [reflexivity|].
  rewrite (get_weight_window service headroom now epoch (Some s) (Some e) st
      sess s e)
    by done.
  by apply get_then_decode_wire.
Qed.

Lemma get_weight_explicit_bounds_witness :
  wire (get_weight service_404 headroom_900 (noon 2024 6 1) 1700000000
          (Some (noon 2024 3 1)) (Some (noon 2024 1 1)) st_connected).2
  = [get_request
       (WEIGHT_DATE_RANGE_URL
        ++ lit "?_=1700000000&startDate=2024-03-01&endDate=2024-01-01")
       ∅]
  /\ wire (get_weight service_404 headroom_900 (noon 2024 6 1) 1700000000
             (Some (noon 999 12 31)) (Some (noon 1000 1 1)) st_connected).2
     = [get_request
          (WEIGHT_DATE_RANGE_URL
           ++ lit "?_=1700000000&startDate=999-12-31&endDate=1000-01-01")
          ∅].
Proof.
  split.
  - exact (proj2 (get_weight_explicit_bounds service_404 headroom_900
                    (noon 2024 6 1) (noon 2024 6 1) 1700000000
                    (noon 2024 3 1) (noon 2024 1 1)
                    st_connected {| cookies := ∅ |} eq_refl)).
  - exact (proj2 (get_weight_explicit_bounds service_404 headroom_900
                    (noon 2024 6 1) (noon 2024 6 1) 1700000000
                    (noon 999 12 31) (noon 1000 1 1)
                    st_connected {| cookies := ∅ |} eq_refl)).
Defined.

(** X11.  With an end and no start, the window is the thirty days before
    the given end, whatever the clock says; the two dates go out as
    [strftime] writes them. *)
Theorem get_weight_window_before_end
    (service : list request -> request -> reply) (headroom : nat)
    (now : datetime)
    (epoch : Z) (e : datetime) (st : state) (sess : Session) :
  session (self st) = Some sess -> valid e = true -> 30 < toordinal e ->
  exists start,
    sub_days e 30 = Some start
    /\ valid start = true
    /\ toordinal start = toordinal e - 30
    /\ wire (get_weight service headroom now epoch None (Some e) st).2
       = wire st
         ++ [get_request
               (WEIGHT_DATE_RANGE_URL ++ lit "?" ++ lit "_="
                ++ str_of_int epoch
                ++ lit "&startDate=" ++ strftime_Ymd start
                ++ lit "&endDate=" ++ strftime_Ymd e)
               (cookies sess)].
Proof.
  intros Hs Hv Hb. pose proof (toordinal_bounds e Hv) as Hm.
  destruct (sub_days_spec e 30 Hv ltac:(lia)) as (start & Hsub & Hvs & Ho).
  exists start. split_and!; try done.
  rewrite (get_weight_window service headroom now epoch None (Some e) st sess
      start e)
    by done.
  by apply get_then_decode_wire.
Qed.

Lemma get_weight_window_before_end_witness :
  wire (get_weight service_404 headroom_900 (noon 2024 6 1) 1700000000 None
          (Some (noon 2000 3 1)) st_connected).2
  = [get_request
       (WEIGHT_DATE_RANGE_URL
        ++ lit "?_=1700000000&startDate=2000-01-31&endDate=2000-03-01")
       ∅]
  /\ wire (get_weight service_404 headroom_900 (noon 2024 6 1) 1700000000
             None (Some (noon 1 1 31)) st_connected).2
     = [get_request
          (WEIGHT_DATE_RANGE_URL
           ++ lit "?_=1700000000&startDate=1-01-01&endDate=1-01-31")
          ∅].
Proof.
  destruct (get_weight_window_before_end service_404 headroom_900
              (noon 2024 6 1) 1700000000 (noon 2000 3 1) st_connected
              {| cookies := ∅ |} eq_refl eq_refl ltac:(by vm_compute))
    as (s1 & H1 & _ & _ & W1).
  destruct (get_weight_window_before_end service_404 headroom_900
              (noon 2024 6 1) 1700000000 (noon 1 1 31) st_connected
              {| cookies := ∅ |} eq_refl eq_refl ltac:(by vm_compute))
    as (s2 & H2 & _ & _ & W2).
  vm_compute in H1, H2. injection H1 as <-. injection H2 as <-.
  rewrite W1, W2. split; vm_compute; reflexivity.
Defined.

(** X12.  With an end within the first thirty days of the calendar and no
    start, the subtraction overflows: [get_weight] raises [OverflowError]
    and sends nothing. *)
Theorem get_weight_window_overflow
    (service : list request -> request -> reply) (headroom : nat)
    (now : datetime)
    (epoch : Z) (e : datetime) (st : state) (sess : Session) :
  session (self st) = Some sess -> toordinal e <= 30 ->
  get_weight service headroom now epoch None (Some e) st = (Raise
      OverflowError, st).
Proof.
  intros Hs Hb. unfold get_weight, require_session. rewrite Hs.
  unfold sub_days. destruct (Z.ltb_spec 0 (toordinal e - 30)); [lia|].
  reflexivity.
Qed.

Lemma get_weight_window_overflow_witness :
  get_weight service_404 headroom_900 (noon 2024 6 1) 1700000000 None
    (Some (noon 1 1 15)) st_connected
  = (Raise OverflowError, st_connected).
Proof.
  apply (get_weight_window_overflow service_404 headroom_900 (noon 2024 6 1)
      1700000000
           (noon 1 1 15) st_connected {| cookies := ∅ |}).
  - reflexivity.
  - by vm_compute.
Defined.

(** What a fetch leaves behind, from a state that holds a session: either
    nothing at all, or one GET, the same client with the jar possibly
    updated, and at most one more log record. *)
Lemma fetch_cases (service : list request -> request -> reply) (headroom : nat)
    (st : state) (sess : Session) (res : outcome pyvalue * state) :
  session (self st) = Some sess ->
  (exists e, res = (Raise e, st))
  \/ (exists u, res = bind (session_get service u) (decode headroom) st) ->
  res.2 = st
  \/ exists u jar,
       wire res.2 = wire st ++ [get_request u (cookies sess)]
       /\ self res.2 = with_jar (self st) jar.
Proof.
  intros Hs [[e ->]|[u ->]]; [by left|]. right.
  destruct (get_then_decode_cases service headroom u st sess Hs) as [Hw Hc].
  cbv zeta in Hw, Hc. exists u.
  destruct (service (wire st) (get_request u (cookies sess))) as [r|e].
  - destruct Hc as [Hc _]. by eexists.
  - exists (cookies sess). rewrite Hc. cbn [snd wire self]. split; [done|].
    unfold with_jar. destruct (self st) as [un pw ss], sess. cbn in *.
    by rewrite Hs.
Qed.

(** X13.  No operation of the client changes the user name or the
    password it was built with. *)
Theorem credentials_kept
    (service : list request -> request -> reply) (headroom : nat)
    (now : datetime) (epoch : Z) (start end_ : option datetime) (st : state) :
  let same (s' : state) :=
    username (self s') = username (self st)
    /\ password (self s') = password (self st) in
  same (connect service st).2
  /\ same (disconnect st).2
  /\ same (get_weight service headroom now epoch start end_ st).2
  /\ same (get_calories service headroom epoch start end_ st).2.
Proof.
  intros same. subst same. cbv beta.
  split; [|split; [|split]].
  - rewrite connect_authenticate.
    destruct (authenticate_cases service (st_connecting st)
                {| cookies := ∅ |} eq_refl)
      as [(e & _ & ->)|[(r1 & _ & _ & ->)|[(r1 & e & _ & _ & _ & ->)|
         [(r1 & u & e & _ & _ & _ & _ & ->)|
         [(r1 & u & r2 & _ & _ & _ & _ & _ & ->)|
         [(r1 & u & r2 & e & _ & _ & _ & _ & _ & _ & ->)|
          (r1 & u & r2 & r3 & _ & _ & _ & _ & _ & _ & ->)]]]]]]; done.
  - unfold disconnect. run_step. by destruct (session (self st)).
  - destruct (session (self st)) as [sess|] eqn:Hs.
    + destruct (fetch_cases service headroom st sess _ Hs
                  (get_weight_cases service headroom now epoch start end_ st))
        as [->|(u & jar & _ & ->)]; done.
    + unfold get_weight, require_session. by rewrite Hs.
  - destruct (session (self st)) as [sess|] eqn:Hs.
    + destruct (fetch_cases service headroom st sess _ Hs
                  (get_calories_cases service headroom epoch start end_ st))
        as [->|(u & jar & _ & ->)]; done.
    + unfold get_calories, require_session. by rewrite Hs.
Qed.

(** X14.  A fetch on a client that holds a session sends exactly one
    request, a GET without parameters or form data, and never a second
    one; the client holds a session afterwards.  The one exception is
    [get_weight] when the start it would default to is before the
    calendar: it raises [OverflowError] and sends nothing. *)
Theorem fetch_sends_one_request
    (service : list request -> request -> reply) (headroom : nat)
    (now : datetime) (epoch : Z) (start end_ : option datetime)
    (st : state) (sess : Session) :
  session (self st) = Some sess ->
  let one (s' : state) : Prop :=
    (exists q, wire s' = wire st ++ [q]
               /\ method q = GET /\ params q = [] /\ data q = [])
    /\ connected s' in
  match window now start end_ with
  | Some _ => one (get_weight service headroom now epoch start end_ st).2
  | None =>
      get_weight service headroom now epoch start end_ st
      = (Raise OverflowError, st)
  end
  /\ one (get_calories service headroom epoch start end_ st).2.
Proof.
  intros Hs one.
  assert (G : forall u,
            one (bind (session_get service u) (decode headroom) st).2).
  { intros u. rewrite (get_then_decode_run _ _ _ _ _ Hs). cbv zeta.
    split.
    - exists (get_request u (cookies sess)).
      split; [|done].
      destruct (service _ _) as [r|x]; [|done].
      by destruct (negb _).
    - unfold connected.
      destruct (service _ _) as [r|x]; [|cbn [snd self]; by rewrite Hs].
      by destruct (negb _). }
  split.
  - destruct (window now start end_) as [[s e]|] eqn:Hw.
    + rewrite (get_weight_run _ _ _ _ _ _ _ _ _ _ Hs Hw). apply G.
    + unfold get_weight, require_session. rewrite Hs.
      unfold window in Hw. cbv zeta in Hw. destruct start as [s0|]; [done|].
      by destruct (sub_days _ 30).
  - rewrite (get_calories_run _ _ _ _ _ _ _ Hs). apply G.
Qed.

Lemma fetch_sends_one_request_witness :
  ((exists q,
      wire (get_weight service_404 headroom_900 (noon 2024 3 1) 1700000000
              None None st_connected).2 = wire st_connected ++ [q]
      /\ method q = GET /\ params q = [] /\ data q = [])
   /\ connected (get_weight service_404 headroom_900 (noon 2024 3 1)
                   1700000000 None None st_connected).2)
  /\ get_weight service_404 headroom_900 (noon 1 1 15) 1700000000 None None
       st_connected
     = (Raise OverflowError, st_connected).
Proof.
  split.
  - exact (proj1 (fetch_sends_one_request service_404 headroom_900
                    (noon 2024 3 1) 1700000000 None None st_connected
                    {| cookies := ∅ |} eq_refl)).
  - exact (proj1 (fetch_sends_one_request service_404 headroom_900
                    (noon 1 1 15) 1700000000 None None st_connected
                    {| cookies := ∅ |} eq_refl)).
Defined.

(** X15.  A fetch files the cookies of the response to its GET in the
    jar, whatever the status of the response and whatever becomes of its
    body. *)
Theorem fetch_files_cookies
    (service : list request -> request -> reply) (headroom : nat)
    (now : datetime) (epoch : Z) (start end_ : option datetime)
    (st : state) (sess : Session) (r : response) :
  session (self st) = Some sess ->
  let filed (req : request) (res : outcome pyvalue * state) : Prop :=
    service (wire st) req = Responded r ->
    wire res.2 = wire st ++ [req]
    /\ jar_of res.2 = update_jar (cookies sess) (cookie_updates r) in
  (forall s e, window now start end_ = Some (s, e) ->
     filed (weight_request epoch s e (cookies sess))
           (get_weight service headroom now epoch start end_ st))
  /\ filed (calories_request (self st) epoch start end_ (cookies sess))
           (get_calories service headroom epoch start end_ st).
Proof.
  intros Hs filed.
  assert (G : forall u, filed (get_request u (cookies sess))
                (bind (session_get service u) (decode headroom) st)).
  { intros u Hr. rewrite (get_then_decode_run _ _ _ _ _ Hs). cbv zeta.
    rewrite Hr. by destruct (negb _). }
  split.
  - intros s e Hw. rewrite (get_weight_run _ _ _ _ _ _ _ _ _ _ Hs Hw).
    apply G.
  - rewrite (get_calories_run _ _ _ _ _ _ _ Hs). apply G.
Qed.

Lemma fetch_files_cookies_witness :
  jar_of (get_weight service_401 headroom_900 (noon 2024 3 1) 1700000000
            None None st_connected).2
  = update_jar ∅ [(garmin_cookie, Some (lit "1"))]
  /\ jar_of (get_calories service_401 headroom_900 1700000000 None None
               st_connected).2
     = update_jar ∅ [(garmin_cookie, Some (lit "1"))].
Proof.
  destruct (fetch_files_cookies service_401 headroom_900 (noon 2024 3 1)
              1700000000 None None st_connected {| cookies := ∅ |}
              {| status_code := 401; text := lit "denied";
                 cookie_updates := [(garmin_cookie, Some (lit "1"))] |}
              eq_refl) as [Hw Hc].
  split.
  - exact (proj2 (Hw (noon 2024 1 31) (noon 2024 3 1) eq_refl eq_refl)).
  - exact (proj2 (Hc eq_refl)).
Defined.

(** ** [main] *)

Lemma fetch_wire (service : list request -> request -> reply) (headroom : nat)
    (now : datetime) (epoch : Z) (start end_ : option datetime)
    (t : target) (st : state) :
  connected st ->
  let s' := (match t with
             | weight => get_weight service headroom now epoch start end_ st
             | calories => get_calories service headroom epoch start end_ st
             end).2 in
  connected s'
  /\ exists more, wire s' = wire st ++ more /\ (length more <= 1)%nat.
Proof.
  unfold connected. intros C.
  destruct (session (self st)) as [sess|] eqn:Hs; [clear C|done].
  destruct (fetch_cases service headroom st sess
              (match t with
               | weight => get_weight service headroom now epoch start end_ st
               | calories => get_calories service headroom epoch start end_ st
               end) Hs) as [E|(u & jar & Hw & Hself)].
  { destruct t; [apply get_weight_cases|apply get_calories_cases]. }
  - cbv zeta. rewrite E, Hs. split; [done|]. exists [].
    split; [by rewrite app_nil_r|simpl; lia].
  - cbv zeta. rewrite Hself, Hw. split; [done|]. eexists.
    split; [done|simpl; lia].
Qed.

(** X16.  A date on the command line that the parser refuses ends [main]
    before a client exists: nothing is sent and nothing is printed. *)
Theorem main_bad_date
    (service : list request -> request -> reply) (headroom : nat)
    (getpass : str -> outcome str) (parse : str -> outcome datetime)
    (now : datetime) (epoch : Z) (a : args) :
  (exists e, parse_optional parse (arg_start a) = Raise e)
  \/ (exists e, parse_optional parse (arg_end a) = Raise e) ->
  exists e,
    result (main service headroom getpass parse now epoch a) = Raise e
    /\ final (main service headroom getpass parse now epoch a) = None
    /\ stdout (main service headroom getpass parse now epoch a) = [].
Proof.
  intros H. unfold main.
  destruct (truthy (arg_password a)) as [p|].
  - destruct H as [[e ->]|[e He]]; [by exists e|].
    destruct (parse_optional parse (arg_start a)) as [s|e']; [|by exists e'].
    rewrite He. by exists e.
  - destruct (getpass PROMPT) as [p|e0]; [|by exists e0].
    destruct H as [[e ->]|[e He]]; [by exists e|].
    destruct (parse_optional parse (arg_start a)) as [s|e']; [|by exists e'].
    rewrite He. by exists e.
Qed.

Lemma main_bad_date_witness :
  exists e,
    result (main service_sso headroom_900 getpass_secret parse_iso (noon 2024 3
        1)
              1700000000
              {| arg_start := Some (lit "yesterday"); arg_end := None;
                 arg_password := None; arg_pretty_print := false;
                 arg_target := weight; arg_username := lit "jo" |})
    = Raise e
    /\ final (main service_sso headroom_900 getpass_secret parse_iso (noon 2024
        3 1)
                1700000000
                {| arg_start := Some (lit "yesterday"); arg_end := None;
                   arg_password := None; arg_pretty_print := false;
                   arg_target := weight; arg_username := lit "jo" |})
       = None
    /\ stdout (main service_sso headroom_900 getpass_secret parse_iso (noon
        2024 3 1)
                 1700000000
                 {| arg_start := Some (lit "yesterday"); arg_end := None;
                    arg_password := None; arg_pretty_print := false;
                    arg_target := weight; arg_username := lit "jo" |})
       = [].
Proof.
  apply main_bad_date. left.
  exists (ValueError (lit "Unknown string format")). reflexivity.
Defined.

(** X17.  [main] never disconnects: whenever it got as far as building the
    client, the client still holds its session when [main] ends, by return
    or by exception; between one and four requests have then been sent. *)
Theorem main_never_disconnects
    (service : list request -> request -> reply) (headroom : nat)
    (getpass : str -> outcome str) (parse : str -> outcome datetime)
    (now : datetime) (epoch : Z) (a : args) (s : state) :
  final (main service headroom getpass parse now epoch a) = Some s ->
  connected s /\ (1 <= length (wire s) <= 4)%nat.
Proof.
  unfold main.
  destruct (match truthy (arg_password a) with
            | Some p => (Return p, [])
            | None => (getpass PROMPT, [PROMPT])
            end) as [[pw|e0] shown]; [|done].
  destruct (parse_optional parse (arg_start a)) as [start|e1]; [|done].
  destruct (parse_optional parse (arg_end a)) as [end_|e2]; [|done].
  set (st0 := {| self := __init__ (arg_username a) pw; wire := [];
                 logged := [] |}).
  pose proof (authenticate_connected service (st_connecting st0)
                ltac:(done)) as C.
  rewrite <- connect_authenticate in C.
  destruct (connect_requests service st0) as (rest & Hw & Hl & _).
  destruct (connect service st0) as [[[]|e3] s1]; cbn [snd] in C, Hw.
  2: { intros [= <-]. split; [done|]. rewrite Hw. simpl. lia. }
  pose proof (fetch_wire service headroom now epoch start end_ (arg_target a)
      s1 C)
    as H.
  cbv zeta in H. destruct H as (C2 & more & Hw2 & Hl2).
  destruct (match arg_target a with
            | weight => _
            | calories => _
            end) as [[data|e4] s2]; cbn [snd] in C2, Hw2;
    intros [= <-]; (split; [done|]); rewrite Hw2, Hw, length_app;
    simpl; lia.
Qed.

Lemma main_never_disconnects_witness :
  connected (get_weight service_sso headroom_900 (noon 2024 3 1) 1700000000
      None None
               (connect service_sso st_fresh).2).2
  /\ (1 <= length (wire (get_weight service_sso headroom_900 (noon 2024 3 1)
      1700000000
                           None None (connect service_sso st_fresh).2).2)
       <= 4)%nat.
Proof.
  assert (H : final (main service_sso headroom_900 getpass_secret parse_iso
                       (noon 2024 3 1) 1700000000 args_weight)
              = Some (get_weight service_sso headroom_900 (noon 2024 3 1)
                  1700000000
                        None None (connect service_sso st_fresh).2).2)
    by (vm_compute; reflexivity).
  pose proof (main_never_disconnects service_sso headroom_900 getpass_secret
      parse_iso
                (noon 2024 3 1) 1700000000 args_weight _ H) as K.
  exact K.
Defined.


(** X19.  The password [main] logs in with is the one of the command line
    when that is not empty, and then no prompt is shown; otherwise it is
    the answer to the one prompt.  The login is the first request sent. *)
Theorem main_password_source
    (service : list request -> request -> reply) (headroom : nat)
    (getpass : str -> outcome str) (parse : str -> outcome datetime)
    (now : datetime) (epoch : Z) (a : args) (s : state) :
  final (main service headroom getpass parse now epoch a) = Some s ->
  exists pw rest,
    wire s = login_request (__init__ (arg_username a) pw) ∅ :: rest
    /\ match truthy (arg_password a) with
       | Some p =>
           pw = p /\ prompts (main service headroom getpass parse now epoch a)
               = []
       | None =>
           getpass PROMPT = Return pw
           /\ prompts (main service headroom getpass parse now epoch a) =
               [PROMPT]
       end.
Proof.
  unfold main.
  assert (G : forall pw shown,
            final
              (match parse_optional parse (arg_start a) with
               | Raise e =>
                   {| result := Raise e; prompts := shown; final := None;
                      stdout := [] |}
               | Return start =>
               match parse_optional parse (arg_end a) with
               | Raise e =>
                   {| result := Raise e; prompts := shown; final := None;
                      stdout := [] |}
               | Return end_ =>
               match connect service
                       {| self := __init__ (arg_username a) pw; wire := [];
                          logged := [] |} with
               | (Raise e, s1) =>
                   {| result := Raise e; prompts := shown; final := Some s1;
                      stdout := [] |}
               | (Return _, s1) =>
               match match arg_target a with
                     | weight => get_weight service headroom now epoch start
                         end_ s1
                     | calories => get_calories service headroom epoch start
                         end_ s1
                     end with
               | (Raise e, s2) =>
                   {| result := Raise e; prompts := shown; final := Some s2;
                      stdout := [PrintTarget (target_name (arg_target a))] |}
               | (Return data, s2) =>
                   {| result := Return tt; prompts := shown;
                      final := Some s2;
                      stdout := [PrintTarget (target_name (arg_target a))]
                                ++ [PrintData (arg_pretty_print a) data] |}
               end end end end) = Some s ->
            exists rest,
              wire s = login_request (__init__ (arg_username a) pw) ∅ :: rest
              /\ prompts
                   (match parse_optional parse (arg_start a) with
                    | Raise e =>
                        {| result := Raise e; prompts := shown;
                           final := None; stdout := [] |}
                    | Return start =>
                    match parse_optional parse (arg_end a) with
                    | Raise e =>
                        {| result := Raise e; prompts := shown;
                           final := None; stdout := [] |}
                    | Return end_ =>
                    match connect service
                            {| self := __init__ (arg_username a) pw;
                               wire := []; logged := [] |} with
                    | (Raise e, s1) =>
                        {| result := Raise e; prompts := shown;
                           final := Some s1; stdout := [] |}
                    | (Return _, s1) =>
                    match match arg_target a with
                          | weight =>
                              get_weight service headroom now epoch start end_
                                  s1
                          | calories =>
                              get_calories service headroom epoch start end_ s1
                          end with
                    | (Raise e, s2) =>
                        {| result := Raise e; prompts := shown;
                           final := Some s2;
                           stdout :=
                             [PrintTarget (target_name (arg_target a))] |}
                    | (Return data, s2) =>
                        {| result := Return tt; prompts := shown;
                           final := Some s2;
                           stdout :=
                             [PrintTarget (target_name (arg_target a))]
                             ++ [PrintData (arg_pretty_print a) data] |}
                    end end end end) = shown).
  { intros pw shown.
    destruct (parse_optional parse (arg_start a)) as [start|e1]; [|done].
    destruct (parse_optional parse (arg_end a)) as [end_|e2]; [|done].
    set (st0 := {| self := __init__ (arg_username a) pw; wire := [];
                   logged := [] |}).
    pose proof (authenticate_connected service (st_connecting st0)
                  ltac:(done)) as C.
    rewrite <- connect_authenticate in C.
    destruct (connect_requests service st0) as (rest & Hw & _).
    destruct (connect service st0) as [[[]|e3] s1]; cbn [snd] in C, Hw.
    2: { intros [= <-]. by exists rest. }
    pose proof (fetch_wire service headroom now epoch start end_ (arg_target a)
        s1 C)
      as H.
    cbv zeta in H. destruct H as (_ & more & Hw2 & _).
    destruct (match arg_target a with
              | weight => _
              | calories => _
              end) as [[data|e4] s2]; cbn [snd] in Hw2;
      intros [= <-]; exists (rest ++ more); by rewrite Hw2, Hw. }
  destruct (truthy (arg_password a)) as [p|].
  - intros H. destruct (G p [] H) as (rest & Hw & Hp). by exists p, rest.
  - destruct (getpass PROMPT) as [pw|e0]; [|done].
    intros H. destruct (G pw [PROMPT] H) as (rest & Hw & Hp).
    by exists pw, rest.
Qed.

Lemma main_password_source_witness :
  exists pw rest,
    wire (get_calories service_sso headroom_900 1700000000 None None
            (connect service_sso st_fresh).2).2
    = login_request (__init__ (lit "jo") pw) ∅ :: rest
    /\ getpass_secret PROMPT = Return pw
    /\ prompts (main service_sso headroom_900 getpass_secret parse_iso (noon
        2024 3 1)
                  1700000000
                  {| arg_start := None; arg_end := None;
                     arg_password := Some []; arg_pretty_print := true;
                     arg_target := calories; arg_username := lit "jo" |})
       = [PROMPT].
Proof.
  assert (H : final (main service_sso headroom_900 getpass_secret parse_iso
                       (noon 2024 3 1) 1700000000
                       {| arg_start := None; arg_end := None;
                          arg_password := Some []; arg_pretty_print := true;
                          arg_target := calories; arg_username := lit "jo" |})
              = Some (get_calories service_sso headroom_900 1700000000 None None
                        (connect service_sso st_fresh).2).2)
    by (vm_compute; reflexivity).
  pose proof (main_password_source service_sso headroom_900 getpass_secret
      parse_iso
                (noon 2024 3 1) 1700000000
                {| arg_start := None; arg_end := None;
                   arg_password := Some []; arg_pretty_print := true;
                   arg_target := calories; arg_username := lit "jo" |}
                _ H) as K.
  destruct K as (pw & rest & Hw & Hp & Hs).
  exists pw, rest. split; [exact Hw|]. split; [exact Hp|exact Hs].
Defined.

(** ** [connect] and the fetches together *)



(** X21.  After a [connect] that returned, a fetch is not refused: its GET
    goes out as the next request after the three of the handshake, with
    the jar as [connect] left it; [get_calories] always, [get_weight]
    whenever its window exists. *)
Theorem fetch_after_connect_is_sent
    (service : list request -> request -> reply) (headroom : nat)
    (now : datetime) (epoch : Z) (start end_ : option datetime)
    (st st' : state) :
  connect service st = (Return tt, st') ->
  let sent (q : request) (s' : state) : Prop :=
    exists r1 t r2,
      wire s' = wire st ++ handshake (self st) r1 t r2 ++ [q] in
  (forall s e, window now start end_ = Some (s, e) ->
     sent (weight_request epoch s e (jar_of st'))
          (get_weight service headroom now epoch start end_ st').2)
  /\ sent (calories_request (self st) epoch start end_ (jar_of st'))
          (get_calories service headroom epoch start end_ st').2.
Proof.
  rewrite connect_authenticate. intros H sent.
  destruct (authenticate_cases service (st_connecting st) {| cookies := ∅ |}
              eq_refl)
    as [(e & _ & E)|[(r1 & _ & _ & E)|[(r1 & e & _ & _ & _ & E)|
       [(r1 & u & e & _ & _ & _ & _ & E)|[(r1 & u & r2 & _ & _ & _ & _ & _ & E)|
       [(r1 & u & r2 & e & _ & _ & _ & _ & _ & _ & E)|
        (r1 & u & r2 & r3 & _ & _ & _ & _ & _ & _ & E)]]]]]];
    rewrite E in H; try discriminate H.
  injection H as Hst.
  assert (Hw : wire st' = wire st ++ handshake (self st) r1 u r2).
  { rewrite <- Hst. cbn [wire]. unfold handshake.
    cbn [wire st_after_claim st_connecting]. by rewrite <- app_assoc. }
  assert (Hs : session (self st') = Some {| cookies := jar_of st' |})
    by (by rewrite <- Hst).
  assert (Hu : username (self st') = username (self st))
    by (by rewrite <- Hst).
  assert (G : forall v,
            sent (get_request v (jar_of st'))
                 (bind (session_get service v) (decode headroom) st').2).
  { intros v. exists r1, u, r2.
    rewrite (get_then_decode_run _ _ _ _ _ Hs). cbv zeta. cbn [cookies].
    rewrite app_assoc, <- Hw.
    destruct (service _ _) as [r|x]; [|done]. by destruct (negb _). }
  split.
  - intros s e Hwin.
    rewrite (get_weight_run _ _ _ _ _ _ _ _ _ _ Hs Hwin). apply G.
  - rewrite (get_calories_run _ _ _ _ _ _ _ Hs).
    unfold calories_request. rewrite Hu. apply G.
Qed.

Lemma fetch_after_connect_is_sent_witness :
  exists r1 t r2,
    wire (get_calories service_sso headroom_900 1700000000 None None
            (connect service_sso st_fresh).2).2
    = wire st_fresh ++ handshake (self st_fresh) r1 t r2
      ++ [calories_request (self st_fresh) 1700000000 None None
            (jar_of (connect service_sso st_fresh).2)].
Proof.
  assert (Hc : connect service_sso st_fresh
               = (Return tt, (connect service_sso st_fresh).2))
    by (vm_compute; reflexivity).
  pose proof (fetch_after_connect_is_sent service_sso headroom_900
                (noon 2024 3 1) 1700000000 None None st_fresh _ Hc)
    as [_ K].
  exact K.
Defined.
